(** * pymysensors: the sensor module ([mysensors/sensor.py])

    A shallow embedding of the classes [Sensor] and [ChildSensor] and the
    properties of their state handling: persistence hooks, validated scalar
    setters, child registration, the smart-sleep desired-state shadow and the
    per-child validation schema.

    Python dictionaries are finite maps ([gmap]); the attribute dictionary of
    an object, whose order of keys is visible when it is saved and loaded, is
    an association list.  Methods that mutate the object are functions from
    the state to an outcome and the state afterwards, so that what is left
    behind by a raising call is part of the model. *)

From Stdlib Require Import ZArith Ascii String List.
From stdpp Require Import gmap strings list fin_maps.

Local Open Scope Z_scope.
Local Open Scope string_scope.

(** ** Python values, exceptions and outcomes *)

Module Py.

(** The scalar values a sensor stores or receives. *)
Inductive pyval : Type :=
| PNone
| PBool (b : bool)
| PInt (z : Z)
| PStr (s : string).

(** Python truth value: [None], [False], [0] and the empty string are
    falsy. *)
Definition truthy (v : pyval) : bool :=
  match v with
  | PNone => false
  | PBool b => b
  | PInt z => negb (Z.eqb z 0)
  | PStr s => negb (String.eqb s "")
  end.

Inductive exn : Type :=
| KeyError (key : Z)
| AttributeError (name : string)
| Invalid (msg : string)
| TypeError (msg : string)
| OtherError (msg : string).

(** Outcome of a call: a returned value or a raised exception. *)
Inductive res (A : Type) : Type :=
| Ok (a : A)
| Raise (e : exn).
Arguments Ok {A} a.
Arguments Raise {A} e.

Definition bind {A B} (r : res A) (k : A -> res B) : res B :=
  match r with
  | Ok a => k a
  | Raise e => Raise e
  end.

(** [d[key]]: subscription raises [KeyError] on a missing key. *)
Definition subscript {V} (d : gmap Z V) (key : Z) : res V :=
  match d !! key with
  | Some v => Ok v
  | None => Raise (KeyError key)
  end.

(** [key in d] *)
Definition contains {V} (d : gmap Z V) (key : Z) : bool :=
  match d !! key with
  | Some _ => true
  | None => false
  end.

(** [d.get(key)]: [None] on a missing key. *)
Definition get (d : gmap Z pyval) (key : Z) : pyval :=
  default PNone (d !! key).

End Py.
Import Py.

Notation "x <~ e ;; k" := (Py.bind e (fun x => k))
  (at level 100, e at next level, right associativity, only parsing).

(** ** External collaborators

    [const.py], [message.py] and [validation.py] are other modules of the
    package, and voluptuous is a library; the sensor module only calls them.
    They are parameters of the development. *)

(** A voluptuous validator: returns the validated value or raises. *)
Definition validator : Type := pyval -> res pyval.

(** A dictionary schema: value-type tag to validator. *)
Abbreviation Schema := (gmap Z validator).

(** The protocol constant table of one protocol version.  Members of the
    integer enumerations ([Presentation], [SetReq], [MessageType]) are
    represented by their integer value, so [typ.value] is [typ]. *)
Record Const : Type := mkConst {
  MessageType_set : Z;
  Presentation_S_CUSTOM : Z;
  VALID_TYPES : gmap Z (list Z);
  VALID_SETREQ : gmap Z validator;
}.

(** [Message(node_id=..., child_id=..., type=..., sub_type=..., payload=...)] *)
Record Message : Type := mkMessage {
  node_id : Z;
  msg_child_id : Z;
  msg_type : Z;
  sub_type : Z;
  payload : pyval;
}.

Class Collaborators : Type := {
  (** [validation.is_battery_level], [is_heartbeat], [safe_is_version]:
      the validated value (an integer, an integer, a version string) or an
      exception. *)
  is_battery_level : pyval -> res Z;
  is_heartbeat : pyval -> res Z;
  safe_is_version : pyval -> res string;
  (** [const.get_const(protocol_version)] *)
  get_const : string -> res Const;
  (** [Message.encode()]: the wire form, or [None]. *)
  Message_encode : Message -> option string;
  (** [Message.validate(protocol_version)] *)
  Message_validate : Message -> string -> res unit;
  (** [vol.Schema.__call__]: applying a schema to a value map. *)
  Schema_call : Schema -> gmap Z pyval -> res (gmap Z pyval);
}.

(** ** class ChildSensor *)

Module ChildSensor.

Record t : Type := mk {
  id : Z;
  type : Z;
  description : string;
  values : gmap Z pyval;
}.

(** [ChildSensor(child_id, child_type, description)] *)
Definition __init__ (child_id child_type : Z) (description : string) : t :=
  {| id := child_id; type := child_type; description := description;
     values := ∅ |}.

Definition set_values (self : t) (vs : gmap Z pyval) : t :=
  {| id := id self; type := type self; description := description self;
     values := vs |}.

(** [self.values[value_type] = value] *)
Definition set_value (self : t) (value_type : Z) (value : pyval) : t :=
  set_values self (<[value_type := value]> (values self)).

(** The dictionary comprehension
    [{typ.value: const.VALID_SETREQ[typ] for typ in typs}]: entries are
    stored from left to right, so a repeated key keeps the last one; a
    [typ] without an entry in [VALID_SETREQ] raises [KeyError]. *)
Fixpoint setreq_table (const : Const) (typs : list Z) (acc : Schema)
  : res Schema :=
  match typs with
  | [] => Ok acc
  | typ :: rest =>
      v <~ subscript (VALID_SETREQ const) typ ;;
      setreq_table const rest (<[typ := v]> acc)
  end.

(** Modelled from the spec: voluptuous's [Schema.extend] is not part of the
    sources.  "Type-specific fields take precedence on key collision": the
    result holds every entry of the extension, and the entries of the base
    schema under the remaining keys.  The extension's entries are stored
    one after the other into a copy of the base. *)
Definition Schema_extend (base ext : Schema) : Schema :=
  fold_left (fun result kv => <[kv.1 := kv.2]> result) (map_to_list ext) base.

Section WithCollaborators.
Context `{Collaborators}.

(** [get_schema(self, protocol_version)] *)
Definition get_schema (self : t) (protocol_version : string) : res Schema :=
  const <~ get_const protocol_version ;;
  custom_typs <~ subscript (VALID_TYPES const) (Presentation_S_CUSTOM const) ;;
  custom_schema <~ setreq_table const custom_typs ∅ ;;
  typs <~ subscript (VALID_TYPES const) (type self) ;;
  ext <~ setreq_table const typs ∅ ;;
  Ok (Schema_extend custom_schema ext).

(** [validate(self, protocol_version, values=None)] *)
Definition validate (self : t) (protocol_version : string)
    (vals : option (gmap Z pyval)) : res (gmap Z pyval) :=
  let vals := match vals with None => values self | Some vs => vs end in
  schema <~ get_schema self protocol_version ;;
  Schema_call schema vals.

End WithCollaborators.

End ChildSensor.

(** ** Attribute dictionaries

    The [__dict__] of a [Sensor] and the record its [__getstate__] returns:
    attribute names with their values, in insertion order. *)

Module Attr.

Inductive attr : Type :=
| AVal (v : pyval)
| ADict (d : gmap Z ChildSensor.t)
| ADeque (q : list Message).

Abbreviation pydict := (list (string * attr)).

(** [key in d] *)
Fixpoint has (key : string) (d : pydict) : bool :=
  match d with
  | [] => false
  | (k, _) :: rest => if String.eqb key k then true else has key rest
  end.

Fixpoint lookup (key : string) (d : pydict) : option attr :=
  match d with
  | [] => None
  | (k, v) :: rest => if String.eqb key k then Some v else lookup key rest
  end.

(** [d[key] = val]: a known key keeps its place, a new one goes last. *)
Fixpoint store (key : string) (val : attr) (d : pydict) : pydict :=
  match d with
  | [] => [(key, val)]
  | (k, v) :: rest =>
      if String.eqb key k then (k, val) :: rest
      else (k, v) :: store key val rest
  end.

(** [d.pop(key, None)]: the value (if any) and the dictionary without the
    key. *)
Fixpoint pop (key : string) (d : pydict) : option attr * pydict :=
  match d with
  | [] => (None, [])
  | (k, v) :: rest =>
      if String.eqb key k then (Some v, rest)
      else let '(r, rest') := pop key rest in (r, (k, v) :: rest')
  end.

Definition is_None (a : attr) : bool :=
  match a with
  | AVal PNone => true
  | _ => false
  end.

(** Readers used to turn a loaded [__dict__] back into a typed object. *)
Definition as_val (a : attr) : option pyval :=
  match a with AVal v => Some v | _ => None end.
Definition as_int (a : attr) : option Z :=
  match a with AVal (PInt z) => Some z | _ => None end.
Definition as_str (a : attr) : option string :=
  match a with AVal (PStr s) => Some s | _ => None end.
Definition as_bool (a : attr) : option bool :=
  match a with AVal (PBool b) => Some b | _ => None end.
Definition as_dict (a : attr) : option (gmap Z ChildSensor.t) :=
  match a with ADict d => Some d | _ => None end.
Definition as_deque (a : attr) : option (list Message) :=
  match a with ADeque q => Some q | _ => None end.

End Attr.
Import Attr.

(** ** class Sensor *)

Module Sensor.

Record t : Type := mk {
  sensor_id : Z;
  children : gmap Z ChildSensor.t;
  type : pyval;
  sketch_name : pyval;
  sketch_version : pyval;
  _battery_level : Z;
  _protocol_version : string;
  _heartbeat : Z;
  new_state : gmap Z ChildSensor.t;
  queue : list Message;
  reboot : bool;
}.

(** [Sensor(sensor_id)] *)
Definition __init__ (sensor_id : Z) : t :=
  {| sensor_id := sensor_id; children := ∅; type := PNone;
     sketch_name := PNone; sketch_version := PNone;
     _battery_level := 0; _protocol_version := "1.4"; _heartbeat := 0;
     new_state := ∅; queue := []; reboot := false |}.

(** Attribute assignments. *)
Definition set_children (self : t) (c : gmap Z ChildSensor.t) : t :=
  mk (sensor_id self) c (type self) (sketch_name self) (sketch_version self)
     (_battery_level self) (_protocol_version self) (_heartbeat self)
     (new_state self) (queue self) (reboot self).

Definition set_new_state (self : t) (n : gmap Z ChildSensor.t) : t :=
  mk (sensor_id self) (children self) (type self) (sketch_name self)
     (sketch_version self) (_battery_level self) (_protocol_version self)
     (_heartbeat self) n (queue self) (reboot self).

Definition set__battery_level (self : t) (b : Z) : t :=
  mk (sensor_id self) (children self) (type self) (sketch_name self)
     (sketch_version self) b (_protocol_version self) (_heartbeat self)
     (new_state self) (queue self) (reboot self).

Definition set__heartbeat (self : t) (h : Z) : t :=
  mk (sensor_id self) (children self) (type self) (sketch_name self)
     (sketch_version self) (_battery_level self) (_protocol_version self) h
     (new_state self) (queue self) (reboot self).

Definition set__protocol_version (self : t) (v : string) : t :=
  mk (sensor_id self) (children self) (type self) (sketch_name self)
     (sketch_version self) (_battery_level self) v (_heartbeat self)
     (new_state self) (queue self) (reboot self).

(** The read side of the three properties. *)
Definition battery_level (self : t) : Z := _battery_level self.
Definition heartbeat (self : t) : Z := _heartbeat self.
Definition protocol_version (self : t) : string := _protocol_version self.

(** [bool(self.new_state)]: a dictionary is truthy when it has an entry. *)
Definition is_smart_sleep_node (self : t) : bool :=
  negb (Nat.eqb (size (new_state self)) 0).

(** [add_child_sensor]: the returned id ([None] for a known id) and the
    sensor afterwards. *)
Definition add_child_sensor (child_id child_type : Z) (description : string)
    (self : t) : option Z * t :=
  if contains (children self) child_id then (None, self)
  else
    (Some child_id,
     set_children self
       (<[child_id := ChildSensor.__init__ child_id child_type description]>
          (children self))).

(** [get_desired_value].  The test [self.children[child_id] is None]
    subscripts the dictionary, as does [self.new_state[child_id]].  A
    [ChildSensor] object is truthy, so [... if child else None] takes its
    first branch. *)
Definition get_desired_value (child_id value_type : Z) (self : t)
  : res pyval :=
  _ <~ subscript (children self) child_id ;;
  value <~ (if is_smart_sleep_node self then
              child <~ subscript (new_state self) child_id ;;
              Ok (get (ChildSensor.values child) value_type)
            else Ok PNone) ;;
  if truthy value then Ok value
  else
    child <~ subscript (children self) child_id ;;
    Ok (get (ChildSensor.values child) value_type).

(** One round of the loop of [init_smart_sleep_mode]. *)
Definition mirror_child (new_state : gmap Z ChildSensor.t)
    (child : ChildSensor.t) : gmap Z ChildSensor.t :=
  if contains new_state (ChildSensor.id child) then new_state
  else
    <[ChildSensor.id child :=
        ChildSensor.__init__ (ChildSensor.id child) (ChildSensor.type child)
          (ChildSensor.description child)]> new_state.

(** [init_smart_sleep_mode]: the loop runs over [self.children.values()],
    here in the order in which [map_to_list] lists the children.  The order
    shows only when two children carry the same id, which
    [add_child_sensor] never produces. *)
Definition init_smart_sleep_mode (self : t) : t :=
  set_new_state self
    (fold_left mirror_child (map_to_list (children self)).*2
       (new_state self)).

Section WithCollaborators.
Context `{Collaborators}.

(** The three property setters: the validator's result is stored; when
    it raises, nothing is assigned. *)
Definition set_battery_level (value : pyval) (self : t) : res unit * t :=
  match is_battery_level value with
  | Ok v => (Ok tt, set__battery_level self v)
  | Raise e => (Raise e, self)
  end.

Definition set_heartbeat (value : pyval) (self : t) : res unit * t :=
  match is_heartbeat value with
  | Ok v => (Ok tt, set__heartbeat self v)
  | Raise e => (Raise e, self)
  end.

Definition set_protocol_version (value : pyval) (self : t)
  : res unit * t :=
  match safe_is_version value with
  | Ok v => (Ok tt, set__protocol_version self v)
  | Raise e => (Raise e, self)
  end.

(** [validate_child_state]: [AttributeError] and [vol.Invalid] from
    [msg.validate] are caught, anything else propagates. *)
Definition validate_child_state (child_id value_type : Z) (value : pyval)
    (self : t) : res bool :=
  const <~ get_const (protocol_version self) ;;
  let msg_type := MessageType_set const in
  let msg :=
    {| node_id := sensor_id self; msg_child_id := child_id;
       msg_type := msg_type; sub_type := value_type; payload := value |} in
  match Message_encode msg with
  | None => Ok false
  | Some _ =>
      match Message_validate msg (protocol_version self) with
      | Ok _ => Ok true
      | Raise (AttributeError _) => Ok false
      | Raise (Invalid _) => Ok false
      | Raise e => Raise e
      end
  end.

(** [set_child_desired_state] *)
Definition set_child_desired_state (child_id value_type : Z)
    (value : pyval) (self : t) : res unit * t :=
  if negb (contains (new_state self) child_id) then (Ok tt, self)
  else
    match validate_child_state child_id value_type value self with
    | Raise e => (Raise e, self)
    | Ok false => (Ok tt, self)
    | Ok true =>
        match subscript (new_state self) child_id with
        | Raise e => (Raise e, self)
        | Ok child =>
            (Ok tt,
             set_new_state self
               (<[child_id := ChildSensor.set_value child value_type value]>
                  (new_state self)))
        end
    end.

End WithCollaborators.

(** [update_child_value] *)
Definition update_child_value (child_id value_type : Z) (value : pyval)
    (self : t) : res unit * t :=
  match subscript (children self) child_id with
  | Raise e => (Raise e, self)
  | Ok child =>
      let self :=
        set_children self
          (<[child_id := ChildSensor.set_value child value_type value]>
             (children self)) in
      if negb (contains (new_state self) child_id) then (Ok tt, self)
      else
        match subscript (new_state self) child_id with
        | Raise e => (Raise e, self)
        | Ok new_state_child =>
            (Ok tt,
             set_new_state self
               (<[child_id :=
                    ChildSensor.set_value new_state_child value_type PNone]>
                  (new_state self)))
        end
  end.

(** *** Saving and loading *)

(** [self.__dict__], in the order in which [__init__] assigns. *)
Definition __dict__ (self : t) : pydict :=
  [ ("sensor_id", AVal (PInt (sensor_id self)));
    ("children", ADict (children self));
    ("type", AVal (type self));
    ("sketch_name", AVal (sketch_name self));
    ("sketch_version", AVal (sketch_version self));
    ("_battery_level", AVal (PInt (_battery_level self)));
    ("_protocol_version", AVal (PStr (_protocol_version self)));
    ("_heartbeat", AVal (PInt (_heartbeat self)));
    ("new_state", ADict (new_state self));
    ("queue", ADeque (queue self));
    ("reboot", AVal (PBool (reboot self))) ].

(** [prop = attr[1:] if attr.startswith("_") else attr] *)
Definition public_name (attr : string) : string :=
  match attr with
  | String "_"%char rest => rest
  | _ => attr
  end.

(** One round of the loop of [__getstate__]. *)
Definition getstate_step (state : pydict) (attr : string) : pydict :=
  let '(value, state) := Attr.pop attr state in
  let prop := public_name attr in
  match value with
  | Some v => if is_None v then state else Attr.store prop v state
  | None => state
  end.

(** [__getstate__]: a copy of [__dict__] in which the three private
    backing fields are renamed to their property names. *)
Definition __getstate__ (self : t) : pydict :=
  fold_left getstate_step
    ["_battery_level"; "_heartbeat"; "_protocol_version"] (__dict__ self).

(** The typed object behind an attribute dictionary, when every attribute
    is there and of the expected kind. *)
Definition of_dict (d : pydict) : option t :=
  sid ← Attr.lookup "sensor_id" d ≫= as_int;
  ch ← Attr.lookup "children" d ≫= as_dict;
  ty ← Attr.lookup "type" d ≫= as_val;
  sn ← Attr.lookup "sketch_name" d ≫= as_val;
  sv ← Attr.lookup "sketch_version" d ≫= as_val;
  bl ← Attr.lookup "_battery_level" d ≫= as_int;
  pv ← Attr.lookup "_protocol_version" d ≫= as_str;
  hb ← Attr.lookup "_heartbeat" d ≫= as_int;
  ns ← Attr.lookup "new_state" d ≫= as_dict;
  q ← Attr.lookup "queue" d ≫= as_deque;
  rb ← Attr.lookup "reboot" d ≫= as_bool;
  Some (mk sid ch ty sn sv bl pv hb ns q rb).

Section Loading.
Context `{Collaborators}.

(** A validator is applied to a scalar; a dictionary or a queue is not
    one and is rejected. *)
Definition scalar (val : attr) : res pyval :=
  match val with
  | AVal v => Ok v
  | _ => Raise (Invalid "expected a scalar")
  end.

(** [setattr(self, key, val)] on the object being loaded: the three
    properties go through their setters and [is_smart_sleep_node] has no
    setter.  Three names are attributes of every instance: assigning a
    dictionary to [__dict__] makes it the instance dictionary, so that the
    attributes restored before are gone (a dictionary of children has no
    attribute names among its keys) and anything else is a [TypeError];
    [__class__] takes a class only, which no saved value is; [__weakref__]
    cannot be assigned.  Every other name is stored in [__dict__]. *)
Definition setattr (obj : pydict) (key : string) (val : attr)
  : res pydict :=
  if String.eqb key "battery_level" then
    v <~ scalar val ;; b <~ is_battery_level v ;;
    Ok (Attr.store "_battery_level" (AVal (PInt b)) obj)
  else if String.eqb key "heartbeat" then
    v <~ scalar val ;; h <~ is_heartbeat v ;;
    Ok (Attr.store "_heartbeat" (AVal (PInt h)) obj)
  else if String.eqb key "protocol_version" then
    v <~ scalar val ;; p <~ safe_is_version v ;;
    Ok (Attr.store "_protocol_version" (AVal (PStr p)) obj)
  else if String.eqb key "is_smart_sleep_node" then
    Raise (AttributeError key)
  else if String.eqb key "__dict__" then
    match val with
    | ADict _ => Ok []
    | _ => Raise (TypeError "__dict__ must be set to a dictionary")
    end
  else if String.eqb key "__class__" then
    Raise (TypeError "__class__ must be set to a class")
  else if String.eqb key "__weakref__" then
    Raise (AttributeError key)
  else Ok (Attr.store key val obj).

(** [for key, val in state.items(): setattr(self, key, val)] *)
Fixpoint restore (items : pydict) (obj : pydict) : res pydict :=
  match items with
  | [] => Ok obj
  | (key, val) :: rest => obj <~ setattr obj key val ;; restore rest obj
  end.

(** [__setstate__(state)] on a new, empty object: the [__dict__] of the
    loaded sensor. *)
Definition __setstate__ (state : pydict) : res pydict :=
  obj <~ restore state [] ;;
  let obj := Attr.store "new_state" (ADict ∅) obj in
  let obj := Attr.store "queue" (ADeque []) obj in
  let obj := Attr.store "reboot" (AVal (PBool false)) obj in
  if negb (Attr.has "_heartbeat" obj) then
    h <~ is_heartbeat (PInt 0) ;;
    Ok (Attr.store "_heartbeat" (AVal (PInt h)) obj)
  else Ok obj.

(** Saving a sensor and loading the record: [None] when loading raises
    or leaves an attribute out. *)
Definition reload (self : t) : option t :=
  match __setstate__ (__getstate__ self) with
  | Ok obj => of_dict obj
  | Raise _ => None
  end.

End Loading.

End Sensor.

(** ** A sample instance of the collaborators

    One choice of validators, constant table and message checks, on which
    the model runs on concrete sensors. *)

Module Sample.

(** Modelled from the spec: [validation.py] is not part of the sources.
    "battery_level: integer, domain-validated to a bounded percentage
    range; invalid input rejected, never silently clamped." *)
Definition is_battery_level (value : pyval) : res Z :=
  match value with
  | PInt z =>
      if Z.leb 0 z && Z.leb z 100 then Ok z
      else Raise (Invalid "value must be between 0 and 100")
  | _ => Raise (Invalid "expected int")
  end.

(** Modelled from the spec: "heartbeat: integer, domain-validated to a
    bounded, non-negative duration." *)
Definition is_heartbeat (value : pyval) : res Z :=
  match value with
  | PInt z =>
      if Z.leb 0 z then Ok z else Raise (Invalid "value must be at least 0")
  | _ => Raise (Invalid "expected int")
  end.

(** Modelled from the spec: "protocol_version: string, validated against
    an accepted version-token grammar"; here the tokens of the released
    protocol versions. *)
Definition safe_is_version (value : pyval) : res string :=
  match value with
  | PStr s =>
      if existsb (String.eqb s) ["1.4"; "1.5"; "2.0"; "2.1"; "2.2"] then Ok s
      else Raise (Invalid "not a valid version specifier")
  | _ => Raise (Invalid "not a valid version specifier")
  end.

(** Modelled from the spec: the field schemas of [const.py] are not part of
    the sources.  A validator for the payload of a binary status, ["0"] or
    ["1"]. *)
Definition is_status : validator := fun v =>
  match v with
  | PStr s =>
      if existsb (String.eqb s) ["0"; "1"] then Ok v
      else Raise (Invalid "value must be either 0 or 1")
  | _ => Raise (Invalid "value must be either 0 or 1")
  end.

(** Modelled from the spec: as above, a validator for a free-text field; it
    accepts any string. *)
Definition is_text : validator := fun v =>
  match v with
  | PStr _ => Ok v
  | _ => Raise (Invalid "expected str")
  end.

(** Modelled from the spec: [const.py] is not part of the sources.  A table
    with a binary-switch type (3) carrying a status (2) and a custom type
    (23) carrying five free fields (24 to 28); for the sake of a collision
    the switch type redefines field 24. *)
Definition const_1_4 : Const :=
  {| MessageType_set := 1;
     Presentation_S_CUSTOM := 23;
     VALID_TYPES := {[ 3 := [2; 24]; 23 := [24; 25; 26; 27; 28] ]};
     VALID_SETREQ :=
       {[ 2 := is_status; 24 := is_text; 25 := is_text; 26 := is_text;
          27 := is_text; 28 := is_text ]} |}.

(** Modelled from the spec: "Unknown protocol versions are a hard failure
    from this collaborator." *)
Definition get_const (protocol_version : string) : res Const :=
  if String.eqb protocol_version "1.4" then Ok const_1_4
  else Raise (OtherError "unknown protocol version").

(** Modelled from the spec: [message.py] is not part of the sources.
    "Shaping fails if [value] cannot be encoded as the value type's
    payload"; here a message has a wire form when its payload is a
    string. *)
Definition Message_encode (msg : Message) : option string :=
  match payload msg with
  | PStr s => Some s
  | _ => None
  end.

(** Modelled from the spec: [Message.validate] checks the payload against
    the validator of the value type in the table of the version. *)
Definition Message_validate (msg : Message) (protocol_version : string)
  : res unit :=
  const <~ get_const protocol_version ;;
  check <~ subscript (VALID_SETREQ const) (sub_type msg) ;;
  _ <~ check (payload msg) ;;
  Ok tt.

(** Modelled from the spec: applying a voluptuous schema is not part of the
    sources.  Every supplied key must be in the schema and its value must
    pass the validator under that key. *)
Definition Schema_call (schema : Schema) (vals : gmap Z pyval)
  : res (gmap Z pyval) :=
  fold_left
    (fun acc kv =>
       out <~ acc ;;
       match schema !! kv.1 with
       | Some check => v <~ check kv.2 ;; Ok (<[kv.1 := v]> out)
       | None => Raise (Invalid "extra keys not allowed")
       end)
    (map_to_list vals) (Ok ∅).

Definition collaborators : Collaborators :=
  Build_Collaborators is_battery_level is_heartbeat safe_is_version
    get_const Message_encode Message_validate Schema_call.

(** Node 7 with a binary switch as child 1. *)
Definition node : Sensor.t :=
  (Sensor.add_child_sensor 1 3 "switch" (Sensor.__init__ 7)).2.

(** The node after it entered smart-sleep tracking. *)
Definition sleepy : Sensor.t := Sensor.init_smart_sleep_mode node.

(** The node after a second child was presented. *)
Definition grown : Sensor.t :=
  (Sensor.add_child_sensor 2 3 "second switch" sleepy).2.

(** The sleepy node after a desired status was accepted for child 1. *)
Definition pending : Sensor.t :=
  (@Sensor.set_child_desired_state collaborators 1 2 (PStr "1") sleepy).2.

(** The sleepy node with a message waiting and a reboot requested. *)
Definition busy : Sensor.t :=
  Sensor.mk 7 (Sensor.children pending) PNone (PStr "Relay") (PStr "1.0")
    80 "1.4" 0 (Sensor.new_state pending)
    [ {| node_id := 7; msg_child_id := 1; msg_type := 1; sub_type := 2;
         payload := PStr "1" |} ] true.

End Sample.

(** ** The battery-level validator of the package

    [validation.py] is not part of the sources.  The sensor module
    imports [is_battery_level] from it next to [safe_is_version]; the
    validator is modelled as the package has it: the value is coerced with
    [int] and checked against the percentage range, and a value that fails
    is logged and replaced by the fallback [0] instead of being raised. *)

Module Validation.

(** The characters that [int] skips around a numeral. *)
Definition is_space (c : ascii) : bool :=
  let n := nat_of_ascii c in
  (Nat.leb 9 n && Nat.leb n 13) || (Nat.leb 28 n && Nat.leb n 32).

Definition digit (c : ascii) : option Z :=
  let n := nat_of_ascii c in
  if Nat.leb 48 n && Nat.leb n 57 then Some (Z.of_nat (n - 48)) else None.

Fixpoint lstrip (s : string) : string :=
  match s with
  | String c rest => if is_space c then lstrip rest else s
  | EmptyString => s
  end.

Fixpoint rstrip (s : string) : string :=
  match s with
  | String c rest =>
      match rstrip rest with
      | EmptyString => if is_space c then EmptyString else String c EmptyString
      | rest' => String c rest'
      end
  | EmptyString => s
  end.

(** Decimal digits, with single underscores between digits. *)
Fixpoint digits (s : string) (acc : Z) (after_digit : bool) : option Z :=
  match s with
  | EmptyString => if after_digit then Some acc else None
  | String c rest =>
      match digit c with
      | Some d => digits rest (10 * acc + d) true
      | None =>
          if Ascii.eqb c "_" && after_digit then digits rest acc false
          else None
      end
  end.

(** [int(s)] for a string: blanks around, a sign, a decimal numeral. *)
Definition int_of_string (s : string) : option Z :=
  match rstrip (lstrip s) with
  | String "+" rest => digits rest 0 false
  | String "-" rest => Z.opp <$> digits rest 0 false
  | numeral => digits numeral 0 false
  end.

(** [vol.Coerce(int)]: [int(value)], or [vol.Invalid] where [int] raises. *)
Definition coerce_int (value : pyval) : res Z :=
  match value with
  | PInt z => Ok z
  | PBool b => Ok (if b then 1 else 0)
  | PStr s =>
      match int_of_string s with
      | Some z => Ok z
      | None => Raise (Invalid "expected int")
      end
  | PNone => Raise (Invalid "expected int")
  end.

(** [percent_int = vol.All(vol.Coerce(int), vol.Range(min=0, max=100))] *)
Definition percent_int (value : pyval) : res Z :=
  z <~ coerce_int value ;;
  if Z.leb 0 z && Z.leb z 100 then Ok z
  else Raise (Invalid "value must be between 0 and 100").

(** [is_battery_level]: [vol.Invalid] is caught and answered with [0]. *)
Definition is_battery_level (value : pyval) : res Z :=
  match percent_int value with
  | Ok z => Ok z
  | Raise (Invalid _) => Ok 0
  | Raise e => Raise e
  end.

(** The sample collaborators with this validator for the battery level. *)
Definition collaborators : Collaborators :=
  Build_Collaborators is_battery_level Sample.is_heartbeat
    Sample.safe_is_version Sample.get_const Sample.Message_encode
    Sample.Message_validate Sample.Schema_call.

End Validation.

(** ** Vocabulary of the properties *)

(** The operations that take a sensor from one state to the next. *)
Inductive op : Type :=
| AddChild (child_id child_type : Z) (description : string)
| InitSmartSleep
| SetDesired (child_id value_type : Z) (value : pyval)
| UpdateValue (child_id value_type : Z) (value : pyval)
| SetBattery (value : pyval)
| SetHeartbeat (value : pyval)
| SetVersion (value : pyval)
| SaveLoad.

Section Vocabulary.
Context `{Collaborators}.

(** The sensor after an operation, whether it returned or raised.  When
    loading a saved record fails there is no new object and the sensor at
    hand stays. *)
Definition exec (o : op) (self : Sensor.t) : Sensor.t :=
  match o with
  | AddChild c ty d => (Sensor.add_child_sensor c ty d self).2
  | InitSmartSleep => Sensor.init_smart_sleep_mode self
  | SetDesired c vt v => (Sensor.set_child_desired_state c vt v self).2
  | UpdateValue c vt v => (Sensor.update_child_value c vt v self).2
  | SetBattery v => (Sensor.set_battery_level v self).2
  | SetHeartbeat v => (Sensor.set_heartbeat v self).2
  | SetVersion v => (Sensor.set_protocol_version v self).2
  | SaveLoad => default self (Sensor.reload self)
  end.

Inductive reachable_from (start : Sensor.t) : Sensor.t → Prop :=
| reachable_start : reachable_from start start
| reachable_exec (o : op) (self : Sensor.t) :
    reachable_from start self → reachable_from start (exec o self).

(** The sensors that exist: a new one, and what the operations make of
    it. *)
Definition reachable (self : Sensor.t) : Prop :=
  ∃ sensor_id, reachable_from (Sensor.__init__ sensor_id) self.



End Vocabulary.

(** Every key of the desired-state mapping is a key of [children]. *)
Definition shadows_have_children (self : Sensor.t) : Prop :=
  ∀ k, is_Some (Sensor.new_state self !! k) → is_Some (Sensor.children self !! k).

(** Every child is filed under its own id. *)
Definition keyed_by_id (d : gmap Z ChildSensor.t) : Prop :=
  ∀ k c, d !! k = Some c → ChildSensor.id c = k.

(** The state invariant that the operations maintain. *)
Definition well_formed (self : Sensor.t) : Prop :=
  shadows_have_children self ∧ keyed_by_id (Sensor.children self).

(** [shadow] is a fresh mirror of [child]. *)
Definition mirrors (child shadow : ChildSensor.t) : Prop :=
  ChildSensor.id shadow = ChildSensor.id child
  ∧ ChildSensor.type shadow = ChildSensor.type child
  ∧ ChildSensor.description shadow = ChildSensor.description child
  ∧ ChildSensor.values shadow = ∅.

(** Every child has a shadow under its id that is a fresh mirror of it. *)
Definition every_child_mirrored (self : Sensor.t) : Prop :=
  ∀ k child, Sensor.children self !! k = Some child →
    ∃ shadow, Sensor.new_state self !! ChildSensor.id child = Some shadow
              ∧ mirrors child shadow.

(** The shadow that [init_smart_sleep_mode] creates for a child. *)
Definition fresh_shadow (child : ChildSensor.t) : ChildSensor.t :=
  ChildSensor.__init__ (ChildSensor.id child) (ChildSensor.type child)
    (ChildSensor.description child).

(** The first child in a sequence that carries the id [k]. *)
Definition first_with_id (k : Z) (l : list ChildSensor.t)
  : option ChildSensor.t :=
  find (fun child => Z.eqb (ChildSensor.id child) k) l.

(** The field table of a sensor type in the words of the spec: the
    validators of the value types listed for it, each under its tag. *)
Definition field_table (const : Const) (typs : list Z) : Schema :=
  filter (fun entry => entry.1 ∈ typs) (VALID_SETREQ const).

(** The merged schema in the words of the spec: the generic table extended
    with the type-specific one, whose entry is the one in force on a key of
    both. *)
Definition merged_schema (generic specific : Schema) : Schema :=
  specific ∪ generic.


(** A saved record that leaves the transient attributes out. *)
Definition omits_transients (record : pydict) : Prop :=
  Attr.has "queue" record = false
  ∧ Attr.has "reboot" record = false
  ∧ Attr.has "new_state" record = false.

(** ** Saving and loading a child

    [ChildSensor] has no [__getstate__]: its [__dict__] is what is saved.
    The attribute dictionary of a child holds scalars and the value map. *)

Module ChildAttr.

Inductive attr : Type :=
| AVal (v : pyval)
| AValues (d : gmap Z pyval).

Abbreviation pydict := (list (string * attr)).

(** [key in d] *)
Fixpoint has (key : string) (d : pydict) : bool :=
  match d with
  | [] => false
  | (k, _) :: rest => if String.eqb key k then true else has key rest
  end.

Fixpoint lookup (key : string) (d : pydict) : option attr :=
  match d with
  | [] => None
  | (k, v) :: rest => if String.eqb key k then Some v else lookup key rest
  end.

(** [d[key] = val]: a known key keeps its place, a new one goes last. *)
Fixpoint store (key : string) (val : attr) (d : pydict) : pydict :=
  match d with
  | [] => [(key, val)]
  | (k, v) :: rest =>
      if String.eqb key k then (k, val) :: rest
      else (k, v) :: store key val rest
  end.

(** [d.update(state)]: the items of [state] are stored one after the
    other. *)
Definition update (d state : pydict) : pydict :=
  fold_left (fun d item => store item.1 item.2 d) state d.

(** [self.__dict__], in the order in which [__init__] assigns. *)
Definition __dict__ (self : ChildSensor.t) : pydict :=
  [ ("id", AVal (PInt (ChildSensor.id self)));
    ("type", AVal (PInt (ChildSensor.type self)));
    ("description", AVal (PStr (ChildSensor.description self)));
    ("values", AValues (ChildSensor.values self)) ].

(** [ChildSensor.__setstate__(state)] on a new, empty object: the
    [__dict__] of the loaded child. *)
Definition __setstate__ (state : pydict) : pydict :=
  let obj := update [] state in
  if negb (has "description" obj) then
    store "description" (AVal (PStr "")) obj
  else obj.

Definition as_int (a : attr) : option Z :=
  match a with AVal (PInt z) => Some z | _ => None end.
Definition as_str (a : attr) : option string :=
  match a with AVal (PStr s) => Some s | _ => None end.
Definition as_values (a : attr) : option (gmap Z pyval) :=
  match a with AValues d => Some d | _ => None end.

(** The typed child behind an attribute dictionary, when every attribute is
    there and of the expected kind. *)
Definition of_dict (d : pydict) : option ChildSensor.t :=
  i ← lookup "id" d ≫= as_int;
  ty ← lookup "type" d ≫= as_int;
  ds ← lookup "description" d ≫= as_str;
  vs ← lookup "values" d ≫= as_values;
  Some (ChildSensor.mk i ty ds vs).

End ChildAttr.

(** ** Vocabulary of the further properties *)

(** Two child objects agree on what is fixed at registration. *)
Definition same_static (c c' : ChildSensor.t) : Prop :=
  ChildSensor.id c' = ChildSensor.id c
  ∧ ChildSensor.type c' = ChildSensor.type c
  ∧ ChildSensor.description c' = ChildSensor.description c.

(** Every shadow belongs to the child under the same key and agrees with it
    on id, type and description. *)
Definition shadows_mirror (self : Sensor.t) : Prop :=
  ∀ k shadow, Sensor.new_state self !! k = Some shadow →
    ChildSensor.id shadow = k
    ∧ ∃ child, Sensor.children self !! k = Some child
               ∧ same_static child shadow.

(** The sensor with its transient attributes as loading leaves them. *)
Definition reset (self : Sensor.t) : Sensor.t :=
  Sensor.mk (Sensor.sensor_id self) (Sensor.children self) (Sensor.type self)
    (Sensor.sketch_name self) (Sensor.sketch_version self)
    (Sensor._battery_level self) (Sensor._protocol_version self)
    (Sensor._heartbeat self) ∅ [] false.

(** The loop of [__getstate__] on any attribute dictionary. *)
Definition saved_record (d : pydict) : pydict :=
  fold_left Sensor.getstate_step
    ["_battery_level"; "_heartbeat"; "_protocol_version"] d.

(** The names that [setattr] does not store as they are: the three
    properties, the read-only property and the three attributes that every
    instance has. *)
Definition is_property (key : string) : bool :=
  existsb (String.eqb key)
    ["battery_level"; "heartbeat"; "protocol_version"; "is_smart_sleep_node";
     "__dict__"; "__class__"; "__weakref__"].

(** The attribute under which [setattr] stores for a name. *)
Definition backing_name (key : string) : string :=
  if String.eqb key "battery_level" then "_battery_level"
  else if String.eqb key "heartbeat" then "_heartbeat"
  else if String.eqb key "protocol_version" then "_protocol_version"
  else key.

(** The operations other than entering smart-sleep tracking and loading. *)
Definition keeps_tracking (o : op) : bool :=
  match o with
  | InitSmartSleep | SaveLoad => false
  | _ => true
  end.

(** ** Properties *)

Import Sensor.

(** *** Generic facts about the dictionary operations *)

Lemma contains_true {V} (d : gmap Z V) (key : Z) :
  contains d key = true ↔ is_Some (d !! key).
Proof.
  unfold contains. destruct (d !! key) eqn:E; split; intros Hx; eauto.
  - discriminate.
  - destruct Hx as [v Hv]. discriminate.
Qed.

Lemma contains_false {V} (d : gmap Z V) (key : Z) :
  contains d key = false ↔ d !! key = None.
Proof.
  unfold contains. destruct (d !! key); split; intros Hx; congruence.
Qed.

Lemma subscript_Some {V} (d : gmap Z V) (key : Z) (v : V) :
  d !! key = Some v → subscript d key = Ok v.
Proof. intros E. unfold subscript. by rewrite E. Qed.

Lemma subscript_None {V} (d : gmap Z V) (key : Z) :
  d !! key = None → subscript d key = Raise (KeyError key).
Proof. intros E. unfold subscript. by rewrite E. Qed.

Lemma smart_sleep_iff (self : Sensor.t) :
  is_smart_sleep_node self = true ↔ new_state self ≠ ∅.
Proof.
  unfold is_smart_sleep_node. rewrite negb_true_iff, Nat.eqb_neq.
  by rewrite map_size_empty_iff.
Qed.

Lemma smart_sleep_of_shadow (self : Sensor.t) (k : Z) (shadow : ChildSensor.t) :
  new_state self !! k = Some shadow → is_smart_sleep_node self = true.
Proof.
  intros E. apply smart_sleep_iff. intros Hempty.
  rewrite Hempty, lookup_empty in E. discriminate.
Qed.

(** *** Registration of children *)

(** C9: [add_child_sensor] with an id that is already registered returns
    nothing and changes nothing; with an unused id it registers a child with
    that id, type and description and no values, and returns the id.  It has
    no raising outcome, and no call replaces a registered child. *)
Theorem add_child_sensor_spec (self : Sensor.t) (child_id child_type : Z)
    (description : string) :
  (is_Some (children self !! child_id) →
     add_child_sensor child_id child_type description self = (None, self))
  ∧ (children self !! child_id = None →
     add_child_sensor child_id child_type description self
     = (Some child_id,
        set_children self
          (<[child_id :=
               {| ChildSensor.id := child_id; ChildSensor.type := child_type;
                  ChildSensor.description := description;
                  ChildSensor.values := ∅ |}]> (children self))))
  ∧ (∀ k c, children self !! k = Some c →
       children (add_child_sensor child_id child_type description self).2 !! k
       = Some c).
Proof.
  unfold add_child_sensor. split; [|split].
  - intros Hin. apply contains_true in Hin. by rewrite Hin.
  - intros Hout. apply contains_false in Hout. by rewrite Hout.
  - intros k c Hk. destruct (contains (children self) child_id) eqn:E; simpl.
    + done.
    + apply contains_false in E.
      rewrite lookup_insert_ne; [done | congruence].
Qed.

Lemma add_child_sensor_spec_witness :
  add_child_sensor 1 3 "again" Sample.node = (None, Sample.node)
  ∧ (add_child_sensor 2 3 "second switch" Sample.node).1 = Some 2.
Proof.
  split.
  - apply (proj1 (add_child_sensor_spec Sample.node 1 3 "again")).
    vm_compute. eauto.
  - rewrite (proj1 (proj2 (add_child_sensor_spec Sample.node 2 3
                             "second switch"))); [reflexivity |].
    vm_compute. reflexivity.
Defined.

(** *** Reading the desired value *)

(** When [get_desired_value] raises: the child is unknown, or the node is
    under smart-sleep tracking and the child has no shadow. *)
Lemma get_desired_value_raises (self : Sensor.t) (child_id value_type : Z) :
  (∃ e, get_desired_value child_id value_type self = Raise e)
  ↔ children self !! child_id = None
    ∨ (is_smart_sleep_node self = true ∧ new_state self !! child_id = None).
Proof.
  unfold get_desired_value, subscript.
  destruct (children self !! child_id) as [child|] eqn:Ec; simpl.
  - destruct (is_smart_sleep_node self) eqn:Es; simpl.
    + destruct (new_state self !! child_id) as [shadow|] eqn:En; simpl.
      * split.
        -- intros [e He]. destruct (truthy _); discriminate.
        -- intros [Hx | [_ Hx]]; discriminate.
      * split; eauto.
    + split.
      * intros [e He]. discriminate.
      * intros [Hx | [Hx _]]; discriminate.
  - split; eauto.
Qed.

(** C2: on the sample node that presented a second child after it entered
    smart-sleep tracking, [get_desired_value] for that child raises
    [KeyError] although the child is registered. *)
Theorem get_desired_value_registered_child_raises :
  is_Some (children Sample.grown !! 2)
  ∧ is_smart_sleep_node Sample.grown = true
  ∧ new_state Sample.grown !! 2 = None
  ∧ get_desired_value 2 2 Sample.grown = Raise (KeyError 2).
Proof. vm_compute. eauto. Qed.

(** C3: for a child with a shadow entry, a truthy shadow value is returned
    and otherwise the actual value ([None] when unset); on a node that is
    not under smart-sleep tracking the actual value is returned; a falsy
    shadow value gives the same answer as an unset one. *)
Theorem get_desired_value_resolution (self : Sensor.t)
    (child_id value_type : Z) (child : ChildSensor.t) :
  children self !! child_id = Some child →
  let actual := get (ChildSensor.values child) value_type in
  (∀ shadow, new_state self !! child_id = Some shadow →
     let desired := get (ChildSensor.values shadow) value_type in
     get_desired_value child_id value_type self
     = Ok (if is_smart_sleep_node self && truthy desired then desired
           else actual))
  ∧ (is_smart_sleep_node self = false →
     get_desired_value child_id value_type self = Ok actual)
  ∧ (∀ shadow, new_state self !! child_id = Some shadow →
     (ChildSensor.values shadow !! value_type = None
      ∨ ∃ v, ChildSensor.values shadow !! value_type = Some v
             ∧ truthy v = false) →
     get_desired_value child_id value_type self = Ok actual).
Proof.
  intros Ec actual. unfold get_desired_value.
  rewrite (subscript_Some _ _ _ Ec). simpl. split; [|split].
  - intros shadow En.
    rewrite (smart_sleep_of_shadow _ _ _ En), (subscript_Some _ _ _ En).
    simpl. by destruct (truthy _).
  - intros Es. by rewrite Es.
  - intros shadow En Hfalsy.
    rewrite (smart_sleep_of_shadow _ _ _ En), (subscript_Some _ _ _ En).
    simpl. unfold get.
    destruct Hfalsy as [Hu | (v & Hv & Hf)].
    + by rewrite Hu.
    + rewrite Hv. simpl. by rewrite Hf.
Qed.

Lemma get_desired_value_resolution_witness :
  get_desired_value 1 2 Sample.pending = Ok (PStr "1").
Proof.
  refine (eq_trans
            (proj1 (get_desired_value_resolution Sample.pending 1 2
                      (ChildSensor.mk 1 3 "switch" ∅) _)
               (ChildSensor.mk 1 3 "switch" {[ 2 := PStr "1" ]}) _) _);
    vm_compute; reflexivity.
Defined.

(** *** Receiving a value *)

(** C4: for a registered child, [update_child_value] returns, stores the
    value under the value type of the child, clears that value type in the
    child's shadow when there is one (whatever was desired), and leaves the
    desired-state mapping as it is when there is none. *)
Theorem update_child_value_spec (self : Sensor.t) (child_id value_type : Z)
    (value : pyval) (child : ChildSensor.t) :
  children self !! child_id = Some child →
  ∃ self',
    update_child_value child_id value_type value self = (Ok tt, self')
    ∧ children self'
      = <[child_id := ChildSensor.set_value child value_type value]>
          (children self)
    ∧ (∃ child', children self' !! child_id = Some child'
                 ∧ ChildSensor.values child' !! value_type = Some value)
    ∧ (∀ shadow, new_state self !! child_id = Some shadow →
         new_state self'
         = <[child_id := ChildSensor.set_value shadow value_type PNone]>
             (new_state self)
         ∧ ∃ shadow', new_state self' !! child_id = Some shadow'
                      ∧ get (ChildSensor.values shadow') value_type = PNone)
    ∧ (new_state self !! child_id = None → new_state self' = new_state self).
Proof.
  intros Ec. unfold update_child_value.
  rewrite (subscript_Some _ _ _ Ec). cbn [new_state set_children].
  destruct (new_state self !! child_id) as [shadow|] eqn:En.
  - assert (contains (new_state self) child_id = true) as ->
      by (apply contains_true; eauto).
    rewrite (subscript_Some _ _ _ En). simpl.
    eexists. split; [reflexivity|]. simpl. split; [reflexivity|]. split.
    + eexists. rewrite lookup_insert_eq. split; [reflexivity|].
      simpl. by rewrite lookup_insert_eq.
    + split; [|intros; discriminate].
      intros shadow0 [= <-]. split; [reflexivity|].
      eexists. rewrite lookup_insert_eq. split; [reflexivity|].
      unfold get. simpl. by rewrite lookup_insert_eq.
  - assert (contains (new_state self) child_id = false) as ->
      by (by apply contains_false).
    simpl. eexists. split; [reflexivity|]. simpl. split; [reflexivity|]. split.
    + eexists. rewrite lookup_insert_eq. split; [reflexivity|].
      simpl. by rewrite lookup_insert_eq.
    + split; [intros; discriminate | done].
Qed.

(** For an unknown child [update_child_value] raises [KeyError] and changes
    nothing. *)
Lemma update_child_value_unknown (self : Sensor.t) (child_id value_type : Z)
    (value : pyval) :
  children self !! child_id = None →
  update_child_value child_id value_type value self
  = (Raise (KeyError child_id), self).
Proof.
  intros Ec. unfold update_child_value. by rewrite (subscript_None _ _ Ec).
Qed.

Lemma update_child_value_spec_witness :
  ∃ self',
    update_child_value 1 2 (PStr "0") Sample.pending = (Ok tt, self')
    ∧ get_desired_value 1 2 self' = Ok (PStr "0").
Proof.
  destruct (update_child_value_spec Sample.pending 1 2 (PStr "0")
              (ChildSensor.mk 1 3 "switch" ∅)) as (self' & Hrun & _).
  - vm_compute. reflexivity.
  - exists self'. split; [exact Hrun|].
    vm_compute in Hrun. injection Hrun as <-. vm_compute. reflexivity.
Defined.

(** *** Requesting a value *)

Section Desired.
Context `{Collaborators}.

(** C5: [set_child_desired_state] returns without raising and changes
    nothing when the child has no shadow entry or when
    [validate_child_state] rejects the value; when the child has a shadow
    entry and the value is validated, the value is stored in the shadow's
    value map and nothing else changes. *)
Theorem set_child_desired_state_spec (self : Sensor.t)
    (child_id value_type : Z) (value : pyval) :
  (new_state self !! child_id = None →
     set_child_desired_state child_id value_type value self = (Ok tt, self))
  ∧ (validate_child_state child_id value_type value self = Ok false →
     set_child_desired_state child_id value_type value self = (Ok tt, self))
  ∧ (∀ shadow, new_state self !! child_id = Some shadow →
     validate_child_state child_id value_type value self = Ok true →
     ∃ self',
       set_child_desired_state child_id value_type value self
       = (Ok tt, self')
       ∧ self'
         = set_new_state self
             (<[child_id :=
                  ChildSensor.set_values shadow
                    (<[value_type := value]> (ChildSensor.values shadow))]>
                (new_state self))
       ∧ children self' = children self
       ∧ (∀ k, k ≠ child_id → new_state self' !! k = new_state self !! k)).
Proof.
  unfold set_child_desired_state. split; [|split].
  - intros En. apply contains_false in En. by rewrite En.
  - intros Hv. rewrite Hv. by destruct (contains _ _).
  - intros shadow En Hv.
    assert (contains (new_state self) child_id = true) as ->
      by (apply contains_true; eauto).
    rewrite Hv, (subscript_Some _ _ _ En). simpl.
    eexists. split; [reflexivity|]. split; [reflexivity|].
    split; [reflexivity|].
    intros k Hk. simpl. by rewrite lookup_insert_ne.
Qed.

End Desired.

Lemma set_child_desired_state_spec_witness :
  @set_child_desired_state Sample.collaborators 1 2 (PStr "1") Sample.node
  = (Ok tt, Sample.node)
  ∧ @set_child_desired_state Sample.collaborators 1 2 (PStr "on") Sample.sleepy
    = (Ok tt, Sample.sleepy)
  ∧ ∃ self',
      @set_child_desired_state Sample.collaborators 1 2 (PStr "1")
        Sample.sleepy = (Ok tt, self')
      ∧ get_desired_value 1 2 self' = Ok (PStr "1").
Proof.
  split; [|split].
  - apply (proj1 (@set_child_desired_state_spec Sample.collaborators
                    Sample.node 1 2 (PStr "1"))).
    vm_compute. reflexivity.
  - apply (proj1 (proj2 (@set_child_desired_state_spec Sample.collaborators
                           Sample.sleepy 1 2 (PStr "on")))).
    vm_compute. reflexivity.
  - destruct (proj2 (proj2 (@set_child_desired_state_spec
                              Sample.collaborators Sample.sleepy 1 2
                              (PStr "1")))
                (ChildSensor.mk 1 3 "switch" ∅))
      as (self' & Hrun & Hself & _).
    + vm_compute. reflexivity.
    + vm_compute. reflexivity.
    + exists self'. split; [exact Hrun|]. rewrite Hself.
      vm_compute. reflexivity.
Defined.

(** *** The validated scalars *)

Section Scalars.
Context `{Collaborators}.





End Scalars.

(** *** Saving and loading *)

Section Persistence.
Context `{Collaborators}.

(** The record that [__getstate__] returns. *)
Lemma getstate_eq (self : Sensor.t) :
  __getstate__ self
  = [ ("sensor_id", AVal (PInt (sensor_id self)));
      ("children", ADict (children self));
      ("type", AVal (type self));
      ("sketch_name", AVal (sketch_name self));
      ("sketch_version", AVal (sketch_version self));
      ("new_state", ADict (new_state self));
      ("queue", ADeque (queue self));
      ("reboot", AVal (PBool (reboot self)));
      ("battery_level", AVal (PInt (_battery_level self)));
      ("heartbeat", AVal (PInt (_heartbeat self)));
      ("protocol_version", AVal (PStr (_protocol_version self))) ].
Proof. reflexivity. Qed.

(** Loading a saved record, in terms of the three validators. *)
Lemma reload_eq (self : Sensor.t) :
  reload self
  = match is_battery_level (PInt (_battery_level self)) with
    | Raise _ => None
    | Ok b =>
        match is_heartbeat (PInt (_heartbeat self)) with
        | Raise _ => None
        | Ok h =>
            match safe_is_version (PStr (_protocol_version self)) with
            | Raise _ => None
            | Ok p =>
                Some (Sensor.mk (sensor_id self) (children self) (type self)
                        (sketch_name self) (sketch_version self) b p h
                        ∅ [] false)
            end
        end
    end.
Proof.
  unfold reload, __setstate__. rewrite getstate_eq. cbn.
  destruct (is_battery_level _) as [b|]; cbn; [|reflexivity].
  destruct (is_heartbeat _) as [h|]; cbn; [|reflexivity].
  destruct (safe_is_version _) as [p|]; cbn; reflexivity.
Qed.

End Persistence.

Section ScalarsInvariant.
Context `{Collaborators}.





(** What that assignment does: it returns, and 0 is stored over 80. *)
Lemma battery_level_150_stores_0 :
  battery_level Sample.busy = 80
  ∧ @set_battery_level Validation.collaborators (PInt 150) Sample.busy
    = (Ok tt, set__battery_level Sample.busy 0).
Proof. split; reflexivity. Qed.


End ScalarsInvariant.


(** *** Smart-sleep tracking *)

(** What the loop of [init_smart_sleep_mode] leaves under a key: the entry
    that was there, or else a fresh shadow of the first child with that
    id. *)
Lemma mirror_fold_lookup (l : list ChildSensor.t)
    (shadows : gmap Z ChildSensor.t) (k : Z) :
  fold_left mirror_child l shadows !! k
  = match shadows !! k with
    | Some shadow => Some shadow
    | None => fresh_shadow <$> first_with_id k l
    end.
Proof.
  revert shadows. induction l as [|c l IH]; intros shadows; simpl.
  - by destruct (shadows !! k).
  - rewrite IH. unfold mirror_child.
    destruct (contains shadows (ChildSensor.id c)) eqn:Ein.
    + apply contains_true in Ein as [shadow Hshadow].
      destruct (Z.eqb_spec (ChildSensor.id c) k) as [<-|Hne]; [|done].
      by rewrite Hshadow.
    + apply contains_false in Ein.
      destruct (Z.eqb_spec (ChildSensor.id c) k) as [<-|Hne].
      * by rewrite lookup_insert_eq, Ein.
      * by rewrite lookup_insert_ne.
Qed.

Lemma first_with_id_Some (k : Z) (l : list ChildSensor.t) (c : ChildSensor.t) :
  first_with_id k l = Some c → c ∈ l ∧ ChildSensor.id c = k.
Proof.
  intros Hf. apply find_some in Hf as [Hin Hid].
  split; [by apply list_elem_of_In | by apply Z.eqb_eq].
Qed.

Lemma first_with_id_is_Some (l : list ChildSensor.t) (c : ChildSensor.t) :
  c ∈ l → is_Some (first_with_id (ChildSensor.id c) l).
Proof.
  intros Hin. destruct (first_with_id _ l) eqn:Hf; [eauto|].
  apply list_elem_of_In in Hin.
  pose proof (find_none _ _ Hf c Hin) as Hc. simpl in Hc.
  by rewrite Z.eqb_refl in Hc.
Qed.

Lemma elem_of_values (d : gmap Z ChildSensor.t) (c : ChildSensor.t) :
  c ∈ (map_to_list d).*2 ↔ ∃ k, d !! k = Some c.
Proof.
  rewrite list_elem_of_fmap. split.
  - intros ([k c'] & -> & Hin). exists k. by apply elem_of_map_to_list.
  - intros [k Hk]. exists (k, c). split; [done|].
    by apply elem_of_map_to_list.
Qed.

Lemma init_smart_sleep_mode_lookup (self : Sensor.t) (k : Z) :
  new_state (init_smart_sleep_mode self) !! k
  = match new_state self !! k with
    | Some shadow => Some shadow
    | None => fresh_shadow <$> first_with_id k (map_to_list (children self)).*2
    end.
Proof. unfold init_smart_sleep_mode. simpl. apply mirror_fold_lookup. Qed.

Lemma first_with_id_keyed (d : gmap Z ChildSensor.t) (k : Z)
    (c : ChildSensor.t) :
  keyed_by_id d → d !! k = Some c →
  first_with_id (ChildSensor.id c) (map_to_list d).*2 = Some c.
Proof.
  intros Hkeyed Hk.
  destruct (first_with_id_is_Some (map_to_list d).*2 c) as [c' Hc'].
  { apply elem_of_values. eauto. }
  rewrite Hc'. f_equal.
  apply first_with_id_Some in Hc' as [Hin Hid].
  apply elem_of_values in Hin as [j Hj].
  pose proof (Hkeyed _ _ Hj) as Hj'. pose proof (Hkeyed _ _ Hk) as Hk'.
  congruence.
Qed.

(** C8, as stated, fails: on the sample node whose child 1 has a desired
    status pending, [init_smart_sleep_mode] keeps the shadow of child 1,
    whose value map is not empty. *)
Lemma init_smart_sleep_mode_keeps_pending_values :
  ¬ every_child_mirrored (init_smart_sleep_mode Sample.pending).
Proof.
  intros Hall.
  destruct (Hall 1 (ChildSensor.mk 1 3 "switch" ∅))
    as (shadow & Hshadow & _ & _ & _ & Hvalues).
  - vm_compute. reflexivity.
  - assert (ChildSensor.values shadow !! 2 = None) as Hunset
      by (rewrite Hvalues; apply lookup_empty).
    vm_compute in Hshadow. injection Hshadow as <-.
    vm_compute in Hunset. discriminate.
Qed.

(** C8, amended: after [init_smart_sleep_mode] every child has a shadow
    entry under its id; an entry that was there before the call is left
    untouched, whatever its value map holds; where none was there and
    children are filed under their own ids, the entry has the id, type and
    description of the child and an empty value map; nothing but the
    desired-state mapping changes, and a second call changes nothing. *)
Theorem init_smart_sleep_mode_spec (self : Sensor.t) :
  let self' := init_smart_sleep_mode self in
  self' = set_new_state self (new_state self')
  ∧ (∀ k child, children self !! k = Some child →
       is_Some (new_state self' !! ChildSensor.id child))
  ∧ (∀ k shadow, new_state self !! k = Some shadow →
       new_state self' !! k = Some shadow)
  ∧ (∀ k child, keyed_by_id (children self) →
       children self !! k = Some child →
       new_state self !! ChildSensor.id child = None →
       ∃ shadow, new_state self' !! ChildSensor.id child = Some shadow
                 ∧ mirrors child shadow)
  ∧ init_smart_sleep_mode self' = self'.
Proof.
  intros self'. split; [reflexivity|]. split; [|split; [|split]].
  - intros k child Hk. unfold self'. rewrite init_smart_sleep_mode_lookup.
    destruct (new_state self !! ChildSensor.id child); [eauto|].
    destruct (first_with_id_is_Some (map_to_list (children self)).*2 child)
      as [c' ->]; [|simpl; eauto].
    apply elem_of_values. eauto.
  - intros k shadow Hk. unfold self'.
    by rewrite init_smart_sleep_mode_lookup, Hk.
  - intros k child Hkeyed Hk Hnone. unfold self'.
    rewrite init_smart_sleep_mode_lookup, Hnone.
    rewrite (first_with_id_keyed _ _ _ Hkeyed Hk). simpl.
    eexists. split; [reflexivity|]. by repeat split.
  - unfold self', init_smart_sleep_mode, set_new_state. simpl. f_equal.
    apply map_eq. intros k. rewrite !mirror_fold_lookup.
    destruct (new_state self !! k); [done|].
    by destruct (first_with_id k _).
Qed.

Lemma keyed_by_id_empty : keyed_by_id ∅.
Proof. intros k c Hk. by rewrite lookup_empty in Hk. Qed.

Lemma keyed_by_id_insert (d : gmap Z ChildSensor.t) (k : Z)
    (c : ChildSensor.t) :
  keyed_by_id d → ChildSensor.id c = k → keyed_by_id (<[k := c]> d).
Proof.
  intros Hkeyed Hid j c' Hj. destruct (decide (k = j)) as [<-|Hne].
  - rewrite lookup_insert_eq in Hj. congruence.
  - rewrite lookup_insert_ne in Hj by done. eauto.
Qed.

Lemma init_smart_sleep_mode_spec_witness :
  (∃ shadow,
     new_state (init_smart_sleep_mode Sample.node) !! 1 = Some shadow
     ∧ mirrors (ChildSensor.mk 1 3 "switch" ∅) shadow)
  ∧ new_state (init_smart_sleep_mode Sample.pending) !! 1
    = Some (ChildSensor.mk 1 3 "switch" {[ 2 := PStr "1" ]}).
Proof.
  split.
  - apply (proj1 (proj2 (proj2 (proj2
             (init_smart_sleep_mode_spec Sample.node))))
             1 (ChildSensor.mk 1 3 "switch" ∅)).
    + change (children Sample.node)
        with (<[1 := ChildSensor.__init__ 1 3 "switch"]>
                (∅ : gmap Z ChildSensor.t)).
      apply keyed_by_id_insert; [apply keyed_by_id_empty | reflexivity].
    + vm_compute. reflexivity.
    + vm_compute. reflexivity.
  - apply (proj1 (proj2 (proj2 (init_smart_sleep_mode_spec Sample.pending)))).
    vm_compute. reflexivity.
Defined.

(** *** The desired-state keys are children *)

Lemma subscript_Ok {V} (d : gmap Z V) (key : Z) (v : V) :
  subscript d key = Ok v → d !! key = Some v.
Proof. unfold subscript. destruct (d !! key); congruence. Qed.

Lemma is_Some_insert_known {V} (d : gmap Z V) (key k : Z) (v : V) :
  is_Some (d !! key) → is_Some (<[key := v]> d !! k) → is_Some (d !! k).
Proof.
  intros Hkey Hk. apply lookup_insert_is_Some in Hk as [<- | [_ Hk]]; done.
Qed.

Lemma is_Some_insert_mono {V} (d : gmap Z V) (key k : Z) (v : V) :
  is_Some (d !! k) → is_Some (<[key := v]> d !! k).
Proof.
  intros Hk. apply lookup_insert_is_Some.
  destruct (decide (key = k)); eauto.
Qed.

Lemma add_child_sensor_well_formed (c ty : Z) (d : string) (self : Sensor.t) :
  well_formed self → well_formed (add_child_sensor c ty d self).2.
Proof.
  intros [Hsh Hkeyed]. unfold add_child_sensor.
  destruct (contains (children self) c); simpl; [done|]. split.
  - intros k Hk. simpl. apply is_Some_insert_mono. by apply Hsh.
  - simpl. by apply keyed_by_id_insert.
Qed.

Lemma init_smart_sleep_mode_well_formed (self : Sensor.t) :
  well_formed self → well_formed (init_smart_sleep_mode self).
Proof.
  intros [Hsh Hkeyed]. split; [|done].
  intros k Hk. rewrite init_smart_sleep_mode_lookup in Hk.
  change (children (init_smart_sleep_mode self)) with (children self).
  destruct (new_state self !! k) as [shadow|] eqn:En; [apply Hsh; eauto|].
  destruct (first_with_id k _) as [c|] eqn:Hf; [|by destruct Hk].
  apply first_with_id_Some in Hf as [Hin Hid].
  apply elem_of_values in Hin as [j Hj].
  pose proof (Hkeyed _ _ Hj). replace k with j by congruence. eauto.
Qed.

Lemma update_child_value_well_formed (c vt : Z) (v : pyval) (self : Sensor.t) :
  well_formed self → well_formed (update_child_value c vt v self).2.
Proof.
  intros [Hsh Hkeyed]. unfold update_child_value.
  destruct (subscript (children self) c) as [child|] eqn:Ec; simpl; [|done].
  apply subscript_Ok in Ec.
  assert (keyed_by_id
            (<[c := ChildSensor.set_value child vt v]> (children self))).
  { apply keyed_by_id_insert; [done|]. simpl. eauto. }
  destruct (contains (new_state self) c) eqn:En; simpl.
  - apply contains_true in En.
    destruct (subscript (new_state self) c); simpl.
    + split; [|done]. intros k Hk. simpl in *.
      apply is_Some_insert_mono, Hsh. by eapply is_Some_insert_known.
    + split; [|done]. intros k Hk. simpl in *.
      by apply is_Some_insert_mono, Hsh.
  - split; [|done]. intros k Hk. simpl in *.
    by apply is_Some_insert_mono, Hsh.
Qed.

Section Invariant.
Context `{Collaborators}.

Lemma set_child_desired_state_well_formed (c vt : Z) (v : pyval)
    (self : Sensor.t) :
  well_formed self → well_formed (set_child_desired_state c vt v self).2.
Proof.
  intros [Hsh Hkeyed]. unfold set_child_desired_state.
  destruct (contains (new_state self) c) eqn:En; simpl; [|done].
  apply contains_true in En.
  destruct (validate_child_state _ _ _ _) as [[]|]; simpl; try done.
  destruct (subscript _ _); simpl; [|done].
  split; [|done]. intros k Hk. simpl in *.
  apply Hsh. by eapply is_Some_insert_known.
Qed.

Lemma exec_well_formed (o : op) (self : Sensor.t) :
  well_formed self → well_formed (exec o self).
Proof.
  intros Hwf. destruct o; simpl.
  - by apply add_child_sensor_well_formed.
  - by apply init_smart_sleep_mode_well_formed.
  - by apply set_child_desired_state_well_formed.
  - by apply update_child_value_well_formed.
  - unfold set_battery_level. by destruct (is_battery_level _).
  - unfold set_heartbeat. by destruct (is_heartbeat _).
  - unfold set_protocol_version. by destruct (safe_is_version _).
  - rewrite reload_eq.
    destruct (is_battery_level _); simpl; [|done].
    destruct (is_heartbeat _); simpl; [|done].
    destruct (safe_is_version _); simpl; [|done].
    destruct Hwf as [_ Hkeyed]. split; [|done].
    intros k Hk. simpl in Hk. rewrite lookup_empty in Hk. by destruct Hk.
Qed.

Lemma init_well_formed (sensor_id : Z) :
  well_formed (Sensor.__init__ sensor_id).
Proof.
  split; [|apply keyed_by_id_empty].
  intros k Hk. simpl in Hk. rewrite lookup_empty in Hk. by destruct Hk.
Qed.

Lemma reachable_well_formed (self : Sensor.t) :
  reachable self → well_formed self.
Proof.
  intros [sensor_id Hreach].
  induction Hreach as [|o self _ IH];
    [apply init_well_formed | by apply exec_well_formed].
Qed.

(** C7: in every sensor that a new sensor can become through
    [add_child_sensor], [init_smart_sleep_mode],
    [set_child_desired_state], [update_child_value], the scalar setters
    and saving and loading, and again after any further such operation,
    every key of the desired-state mapping is a key of [children]. *)
Theorem desired_state_keys_are_children (self : Sensor.t) :
  reachable self →
  shadows_have_children self
  ∧ ∀ o, shadows_have_children (exec o self).
Proof.
  intros Hreach. apply reachable_well_formed in Hreach. split.
  - apply Hreach.
  - intros o. by apply exec_well_formed.
Qed.

End Invariant.

Lemma desired_state_keys_are_children_witness :
  shadows_have_children Sample.grown
  ∧ shadows_have_children (init_smart_sleep_mode Sample.grown).
Proof.
  destruct (@desired_state_keys_are_children Sample.collaborators
              Sample.grown) as [Hnow Hnext].
  - exists 7.
    change Sample.grown
      with (@exec Sample.collaborators (AddChild 2 3 "second switch")
              (@exec Sample.collaborators InitSmartSleep
                 (@exec Sample.collaborators (AddChild 1 3 "switch")
                    (Sensor.__init__ 7)))).
    do 3 apply reachable_exec. apply reachable_start.
  - split; [exact Hnow | exact (Hnext InitSmartSleep)].
Defined.

(** *** What is saved and what loading resets *)

Lemma lookup_store_eq (key : string) (val : attr) (d : pydict) :
  Attr.lookup key (Attr.store key val d) = Some val.
Proof.
  induction d as [|[k v] d IH]; simpl.
  - by rewrite String.eqb_refl.
  - destruct (String.eqb key k) eqn:E; simpl; by rewrite E.
Qed.

Lemma lookup_store_ne (key key' : string) (val : attr) (d : pydict) :
  key ≠ key' →
  Attr.lookup key (Attr.store key' val d) = Attr.lookup key d.
Proof.
  intros Hne. apply String.eqb_neq in Hne.
  induction d as [|[k v] d IH]; simpl.
  - by rewrite Hne.
  - destruct (String.eqb key' k) eqn:E; simpl.
    + apply String.eqb_eq in E as ->. by rewrite Hne.
    + by rewrite IH.
Qed.

(** C1, as stated, fails: the record saved for the sample node with a
    message waiting, a reboot requested and a desired status pending holds
    the queue, the reboot flag and the desired-state mapping. *)
Lemma getstate_keeps_transients :
  ¬ omits_transients (__getstate__ Sample.busy).
Proof. intros (Hqueue & _). vm_compute in Hqueue. discriminate. Qed.

Section SaveLoad.
Context `{Collaborators}.

(** Whatever the record, the object that [__setstate__] returns has an
    empty queue, no reboot request and an empty desired-state mapping. *)
Lemma setstate_resets (state obj : pydict) :
  __setstate__ state = Ok obj →
  Attr.lookup "queue" obj = Some (ADeque [])
  ∧ Attr.lookup "reboot" obj = Some (AVal (PBool false))
  ∧ Attr.lookup "new_state" obj = Some (ADict ∅).
Proof.
  unfold __setstate__. destruct (restore state []) as [o|]; simpl; [|done].
  destruct (negb _).
  - destruct (is_heartbeat _) as [h|]; simpl; [|done].
    intros [= <-].
    rewrite !(lookup_store_ne _ "_heartbeat") by done.
    rewrite (lookup_store_ne "queue" "reboot") by done.
    rewrite (lookup_store_ne "new_state" "reboot") by done.
    rewrite (lookup_store_ne "new_state" "queue") by done.
    by rewrite !lookup_store_eq.
  - intros [= <-].
    rewrite (lookup_store_ne "queue" "reboot") by done.
    rewrite (lookup_store_ne "new_state" "reboot") by done.
    rewrite (lookup_store_ne "new_state" "queue") by done.
    by rewrite !lookup_store_eq.
Qed.

(** C1, amended: the saved record holds the identity, the metadata, the
    children, the battery level, the heartbeat and the protocol version,
    and also the queue, the reboot flag and the desired-state mapping as
    they are; loading resets these three: whatever record is loaded, the
    object has an empty queue, no reboot request and an empty desired-state
    mapping, and a saved record whose three scalars pass their validators
    loads into the sensor with the validated scalars, the saved identity,
    metadata and children, and the three transients reset. *)
Theorem save_load_spec (self : Sensor.t) :
  let record := __getstate__ self in
  (Attr.lookup "sensor_id" record = Some (AVal (PInt (sensor_id self)))
   ∧ Attr.lookup "type" record = Some (AVal (type self))
   ∧ Attr.lookup "sketch_name" record = Some (AVal (sketch_name self))
   ∧ Attr.lookup "sketch_version" record = Some (AVal (sketch_version self))
   ∧ Attr.lookup "children" record = Some (ADict (children self))
   ∧ Attr.lookup "battery_level" record
     = Some (AVal (PInt (battery_level self)))
   ∧ Attr.lookup "heartbeat" record = Some (AVal (PInt (heartbeat self)))
   ∧ Attr.lookup "protocol_version" record
     = Some (AVal (PStr (protocol_version self))))
  ∧ (Attr.lookup "queue" record = Some (ADeque (queue self))
     ∧ Attr.lookup "reboot" record = Some (AVal (PBool (reboot self)))
     ∧ Attr.lookup "new_state" record = Some (ADict (new_state self)))
  ∧ (∀ state obj, __setstate__ state = Ok obj →
       Attr.lookup "queue" obj = Some (ADeque [])
       ∧ Attr.lookup "reboot" obj = Some (AVal (PBool false))
       ∧ Attr.lookup "new_state" obj = Some (ADict ∅))
  ∧ (∀ b h p,
       is_battery_level (PInt (battery_level self)) = Ok b →
       is_heartbeat (PInt (heartbeat self)) = Ok h →
       safe_is_version (PStr (protocol_version self)) = Ok p →
       reload self
       = Some (Sensor.mk (sensor_id self) (children self) (type self)
                 (sketch_name self) (sketch_version self) b p h ∅ [] false))
  ∧ (∀ self', reload self = Some self' →
       queue self' = [] ∧ reboot self' = false ∧ new_state self' = ∅).
Proof.
  intros record. unfold record. rewrite getstate_eq.
  split; [by repeat split|]. split; [by repeat split|].
  split; [apply setstate_resets|]. split.
  - intros b h p Hb Hh Hp. rewrite reload_eq.
    unfold battery_level, heartbeat, protocol_version in *.
    by rewrite Hb, Hh, Hp.
  - intros self'. rewrite reload_eq.
    destruct (is_battery_level _); [|done].
    destruct (is_heartbeat _); [|done].
    destruct (safe_is_version _); [|done].
    by intros [= <-].
Qed.

End SaveLoad.

Lemma save_load_spec_witness :
  @reload Sample.collaborators Sample.busy
  = Some (Sensor.mk 7 (children Sample.busy) PNone (PStr "Relay")
            (PStr "1.0") 80 "1.4" 0 ∅ [] false).
Proof.
  apply (proj1 (proj2 (proj2 (proj2
           (@save_load_spec Sample.collaborators Sample.busy)))) 80 0 "1.4");
    reflexivity.
Defined.

(** *** The schema of a child *)

Lemma field_table_lookup (const : Const) (typs : list Z) (k : Z) :
  field_table const typs !! k
  = if decide (k ∈ typs) then VALID_SETREQ const !! k else None.
Proof.
  unfold field_table. apply option_eq. intros check.
  rewrite map_lookup_filter_Some. simpl.
  destruct (decide (k ∈ typs)) as [Hin|Hout]; split.
  - by intros [Hk _].
  - by intros Hk.
  - by intros [_ Hin].
  - discriminate.
Qed.

(** The comprehension stores, over what was there, the validator of every
    listed value type. *)
Lemma setreq_table_lookup (const : Const) (typs : list Z) (acc : Schema) :
  (∀ typ, typ ∈ typs → is_Some (VALID_SETREQ const !! typ)) →
  ∃ table,
    ChildSensor.setreq_table const typs acc = Ok table
    ∧ ∀ k, table !! k
           = if decide (k ∈ typs) then VALID_SETREQ const !! k else acc !! k.
Proof.
  revert acc. induction typs as [|typ rest IH]; intros acc Hall; simpl.
  - exists acc. split; [done|]. intros k.
    destruct (decide (k ∈ [])) as [Hin|]; [|done].
    by apply not_elem_of_nil in Hin.
  - destruct (Hall typ) as [check Hcheck]; [by left|].
    rewrite (subscript_Some _ _ _ Hcheck). simpl.
    destruct (IH (<[typ := check]> acc)) as (table & Hrun & Hlookup).
    { intros t Ht. apply Hall. by right. }
    exists table. split; [done|]. intros k. rewrite Hlookup.
    destruct (decide (k ∈ rest)) as [Hin|Hout].
    + rewrite decide_True; [done | by right].
    + destruct (decide (k = typ)) as [->|Hne].
      * rewrite decide_True by (by left). by rewrite lookup_insert_eq.
      * rewrite lookup_insert_ne by done.
        rewrite decide_False; [done|].
        intros [?|?]%elem_of_cons; done.
Qed.

Lemma setreq_table_field_table (const : Const) (typs : list Z) :
  (∀ typ, typ ∈ typs → is_Some (VALID_SETREQ const !! typ)) →
  ChildSensor.setreq_table const typs ∅ = Ok (field_table const typs).
Proof.
  intros Hall.
  destruct (setreq_table_lookup const typs ∅ Hall) as (table & -> & Hlookup).
  f_equal. apply map_eq. intros k.
  rewrite Hlookup, field_table_lookup, lookup_empty. done.
Qed.

Lemma store_items_lookup (items : list (Z * validator)) (base : Schema)
    (k : Z) :
  NoDup items.*1 →
  fold_left (fun result kv => <[kv.1 := kv.2]> result) items base !! k
  = match (list_to_map items : Schema) !! k with
    | Some check => Some check
    | None => base !! k
    end.
Proof.
  revert base. induction items as [|[k0 v0] items IH]; intros base Hnodup.
  - simpl. by rewrite lookup_empty.
  - apply NoDup_cons in Hnodup as [Hfresh Hnodup]. simpl.
    rewrite IH by done.
    destruct (decide (k0 = k)) as [->|Hne].
    + rewrite (not_elem_of_list_to_map_1 items k Hfresh).
      by rewrite !lookup_insert_eq.
    + by rewrite !lookup_insert_ne.
Qed.

(** Extending is merging with the extension in front. *)
Lemma Schema_extend_union (base ext : Schema) :
  ChildSensor.Schema_extend base ext = merged_schema base ext.
Proof.
  apply map_eq. intros k. unfold ChildSensor.Schema_extend, merged_schema.
  rewrite store_items_lookup by apply NoDup_fst_map_to_list.
  rewrite list_to_map_to_list, lookup_union.
  by destruct (ext !! k), (base !! k).
Qed.

Section ChildSchema.
Context `{Collaborators}.

(** A failure of [get_const] is propagated unchanged. *)
Lemma get_schema_unknown_version (self : ChildSensor.t)
    (protocol_version : string) (e : exn) :
  get_const protocol_version = Raise e →
  ChildSensor.get_schema self protocol_version = Raise e
  ∧ ∀ vals, ChildSensor.validate self protocol_version vals = Raise e.
Proof.
  intros Hconst.
  assert (ChildSensor.get_schema self protocol_version = Raise e) as Hschema
    by (unfold ChildSensor.get_schema; by rewrite Hconst).
  split; [done|]. intros vals. unfold ChildSensor.validate.
  by rewrite Hschema.
Qed.

(** C10: when the constant table of the version lists the value types of
    the custom sensor and of the child's type and has a validator for each
    of them, [get_schema] returns the generic table extended with the table
    of the child's type, in which a key of both tables carries the entry of
    the child's type; [validate] is the application of that schema to the
    supplied value map, or to the child's own values when none is
    supplied. *)
Theorem get_schema_spec (self : ChildSensor.t) (protocol_version : string)
    (const : Const) (custom_typs typs : list Z) :
  get_const protocol_version = Ok const →
  VALID_TYPES const !! Presentation_S_CUSTOM const = Some custom_typs →
  VALID_TYPES const !! ChildSensor.type self = Some typs →
  (∀ typ, typ ∈ custom_typs ∨ typ ∈ typs →
     is_Some (VALID_SETREQ const !! typ)) →
  let generic := field_table const custom_typs in
  let specific := field_table const typs in
  ChildSensor.get_schema self protocol_version
  = Ok (merged_schema generic specific)
  ∧ (∀ k, merged_schema generic specific !! k
          = match specific !! k with
            | Some check => Some check
            | None => generic !! k
            end)
  ∧ (∀ vals,
       ChildSensor.validate self protocol_version vals
       = Schema_call (merged_schema generic specific)
           (default (ChildSensor.values self) vals)).
Proof.
  intros Hconst Hcustom Htyps Hall generic specific.
  assert (ChildSensor.get_schema self protocol_version
          = Ok (merged_schema generic specific)) as Hschema.
  { unfold ChildSensor.get_schema. rewrite Hconst. simpl.
    rewrite (subscript_Some _ _ _ Hcustom). simpl.
    rewrite setreq_table_field_table by (intros; apply Hall; by left).
    simpl. rewrite (subscript_Some _ _ _ Htyps). simpl.
    rewrite setreq_table_field_table by (intros; apply Hall; by right).
    simpl. by rewrite Schema_extend_union. }
  split; [exact Hschema|]. split.
  - intros k. unfold merged_schema. rewrite lookup_union.
    by destruct (specific !! k), (generic !! k).
  - intros vals. unfold ChildSensor.validate. rewrite Hschema.
    by destruct vals.
Qed.

End ChildSchema.

Lemma get_schema_spec_witness :
  @ChildSensor.get_schema Sample.collaborators
    (ChildSensor.mk 1 3 "switch" ∅) "1.4"
  = Ok (merged_schema
          (field_table Sample.const_1_4 [24; 25; 26; 27; 28])
          (field_table Sample.const_1_4 [2; 24])).
Proof.
  apply (@get_schema_spec Sample.collaborators
           (ChildSensor.mk 1 3 "switch" ∅) "1.4" Sample.const_1_4
           [24; 25; 26; 27; 28] [2; 24]).
  - reflexivity.
  - vm_compute. reflexivity.
  - vm_compute. reflexivity.
  - intros typ [Hin|Hin];
      repeat (apply elem_of_cons in Hin as [->|Hin]; [vm_compute; eauto|]);
      by apply not_elem_of_nil in Hin.
Defined.


(** ** Further properties of the sensor *)

(** *** Reading *)

(** X1: [get_desired_value] raises exactly when the child is unknown, or
    the node is under smart-sleep tracking and the child has no shadow; what
    it raises is [KeyError] for the child id. *)
Theorem get_desired_value_error (self : Sensor.t) (child_id value_type : Z)
    (e : exn) :
  get_desired_value child_id value_type self = Raise e
  ↔ e = KeyError child_id
    ∧ (children self !! child_id = None
       ∨ (is_smart_sleep_node self = true
          ∧ new_state self !! child_id = None)).
Proof.
  unfold get_desired_value, subscript.
  destruct (children self !! child_id) as [child|] eqn:Ec; simpl.
  - destruct (is_smart_sleep_node self) eqn:Es; simpl.
    + destruct (new_state self !! child_id) as [shadow|] eqn:En; simpl.
      * split.
        -- destruct (truthy _); discriminate.
        -- intros [_ [Hx | [_ Hx]]]; discriminate.
      * split; [intros [= <-]; eauto | by intros [-> _]].
    + split; [discriminate | intros [_ [Hx | [Hx _]]]; discriminate].
  - split; [intros [= <-]; eauto | by intros [-> _]].
Qed.

Lemma smart_sleep_insert_known (self : Sensor.t) (k : Z)
    (old new : ChildSensor.t) :
  new_state self !! k = Some old →
  is_smart_sleep_node (set_new_state self (<[k := new]> (new_state self)))
  = is_smart_sleep_node self.
Proof.
  intros Hk. unfold is_smart_sleep_node. simpl.
  rewrite map_size_insert_Some; [done | eauto].
Qed.

(** The sensor that [update_child_value] leaves for a registered child. *)
Lemma update_child_value_state (self : Sensor.t) (child_id value_type : Z)
    (value : pyval) (child : ChildSensor.t) :
  children self !! child_id = Some child →
  (update_child_value child_id value_type value self).2
  = let self1 :=
      set_children self
        (<[child_id := ChildSensor.set_value child value_type value]>
           (children self)) in
    match new_state self !! child_id with
    | Some shadow =>
        set_new_state self1
          (<[child_id := ChildSensor.set_value shadow value_type PNone]>
             (new_state self))
    | None => self1
    end.
Proof.
  intros Ec. unfold update_child_value.
  rewrite (subscript_Some _ _ _ Ec). cbn [new_state set_children].
  destruct (new_state self !! child_id) as [shadow|] eqn:En.
  - assert (contains (new_state self) child_id = true) as ->
      by (apply contains_true; eauto).
    by rewrite (subscript_Some _ _ _ En).
  - by assert (contains (new_state self) child_id = false) as ->
      by (by apply contains_false).
Qed.

(** Reading a child with a shadow right after a value was received. *)
Lemma read_after_update_tracked (self : Sensor.t) (child_id value_type : Z)
    (value : pyval) (child shadow : ChildSensor.t) :
  children self !! child_id = Some child →
  new_state self !! child_id = Some shadow →
  get_desired_value child_id value_type
    (update_child_value child_id value_type value self).2
  = Ok value.
Proof.
  intros Ec En. rewrite (update_child_value_state _ _ _ _ _ Ec), En. cbn zeta.
  unfold get_desired_value. cbn [children set_new_state set_children].
  rewrite (subscript_Some _ _ (ChildSensor.set_value child value_type value))
    by apply lookup_insert_eq.
  rewrite (smart_sleep_insert_known
             (set_children self _) child_id shadow _ En).
  assert (is_smart_sleep_node (set_children self
            (<[child_id := ChildSensor.set_value child value_type value]>
               (children self))) = true) as ->.
  { by apply (smart_sleep_of_shadow _ child_id shadow). }
  cbn [new_state]. simpl.
  rewrite (subscript_Some _ _
             (ChildSensor.set_value shadow value_type PNone))
    by apply lookup_insert_eq.
  simpl. unfold get. simpl. by rewrite !lookup_insert_eq.
Qed.

(** X2: after [update_child_value] for a registered child, on a node that
    is not under smart-sleep tracking or has a shadow for the child,
    [get_desired_value] returns the value just received; on a node under
    smart-sleep tracking without a shadow for the child it still raises. *)
Theorem update_then_read (self : Sensor.t) (child_id value_type : Z)
    (value : pyval) (child : ChildSensor.t) :
  children self !! child_id = Some child →
  let self' := (update_child_value child_id value_type value self).2 in
  (is_smart_sleep_node self = false ∨ is_Some (new_state self !! child_id) →
     get_desired_value child_id value_type self' = Ok value)
  ∧ (is_smart_sleep_node self = true ∧ new_state self !! child_id = None →
     get_desired_value child_id value_type self' = Raise (KeyError child_id)).
Proof.
  intros Ec self'. unfold self'.
  destruct (new_state self !! child_id) as [shadow|] eqn:En.
  - split; [|by intros [_ ?]]. intros _.
    by apply (read_after_update_tracked _ _ _ _ child shadow).
  - rewrite (update_child_value_state _ _ _ _ _ Ec), En. cbn zeta.
    unfold get_desired_value. cbn [children set_children].
    rewrite (subscript_Some _ _
               (ChildSensor.set_value child value_type value))
      by apply lookup_insert_eq.
    change (is_smart_sleep_node (set_children self _))
      with (is_smart_sleep_node self).
    change (new_state (set_children self _)) with (new_state self).
    split.
    + intros [Hs | [? ?]]; [|discriminate]. rewrite Hs. simpl.
      unfold get. simpl. by rewrite lookup_insert_eq.
    + intros [Hs _]. rewrite Hs. simpl. by rewrite (subscript_None _ _ En).
Qed.

Lemma update_then_read_witness :
  get_desired_value 1 2
    (update_child_value 1 2 (PStr "0") Sample.pending).2 = Ok (PStr "0").
Proof.
  apply (proj1 (update_then_read Sample.pending 1 2 (PStr "0")
                  (ChildSensor.mk 1 3 "switch" ∅) eq_refl)).
  right. vm_compute. eauto.
Defined.

(** [get_desired_value] looks at three things only: whether the node is
    under smart-sleep tracking, and the values of the child and of its
    shadow under the value type. *)
Lemma get_desired_value_ext (self self' : Sensor.t) (child_id value_type : Z) :
  is_smart_sleep_node self' = is_smart_sleep_node self →
  (λ c, get (ChildSensor.values c) value_type) <$> children self' !! child_id
  = (λ c, get (ChildSensor.values c) value_type) <$> children self !! child_id →
  (λ c, get (ChildSensor.values c) value_type) <$> new_state self' !! child_id
  = (λ c, get (ChildSensor.values c) value_type) <$> new_state self !! child_id →
  get_desired_value child_id value_type self'
  = get_desired_value child_id value_type self.
Proof.
  intros Hs Hc Hn. unfold get_desired_value, subscript. rewrite Hs.
  destruct (children self' !! child_id), (children self !! child_id);
    simpl in Hc; try discriminate; simpl; [|done].
  injection Hc as Hc.
  destruct (is_smart_sleep_node self); simpl; [|by rewrite Hc].
  destruct (new_state self' !! child_id), (new_state self !! child_id);
    simpl in Hn; try discriminate; simpl; [|done].
  injection Hn as Hn. by rewrite Hn, Hc.
Qed.

Lemma get_set_value_other (c : ChildSensor.t) (child_id child_id' : Z)
    (value_type value_type' : Z) (value : pyval)
    (d : gmap Z ChildSensor.t) :
  d !! child_id = Some c →
  child_id' ≠ child_id ∨ value_type' ≠ value_type →
  (λ c, get (ChildSensor.values c) value_type')
    <$> <[child_id := ChildSensor.set_value c value_type value]> d !! child_id'
  = (λ c, get (ChildSensor.values c) value_type') <$> d !! child_id'.
Proof.
  intros Hc Hne. destruct (decide (child_id = child_id')) as [<-|Hk].
  - destruct Hne as [Hne|Hne]; [done|].
    rewrite lookup_insert_eq, Hc. simpl. unfold get. simpl.
    by rewrite lookup_insert_ne.
  - by rewrite lookup_insert_ne.
Qed.

(** X3: [update_child_value] for one child and value type leaves what
    [get_desired_value] answers for every other child or value type as it
    was. *)
Theorem update_child_value_frame (self : Sensor.t) (child_id value_type : Z)
    (value : pyval) (child_id' value_type' : Z) :
  child_id' ≠ child_id ∨ value_type' ≠ value_type →
  get_desired_value child_id' value_type'
    (update_child_value child_id value_type value self).2
  = get_desired_value child_id' value_type' self.
Proof.
  intros Hne. destruct (children self !! child_id) as [child|] eqn:Ec.
  - rewrite (update_child_value_state _ _ _ _ _ Ec). cbn zeta.
    destruct (new_state self !! child_id) as [shadow|] eqn:En.
    + apply get_desired_value_ext.
      * by rewrite (smart_sleep_insert_known
                      (set_children self _) child_id shadow _ En).
      * cbn [children set_new_state set_children].
        by apply get_set_value_other.
      * cbn [new_state set_new_state set_children].
        by apply get_set_value_other.
    + apply get_desired_value_ext; [done | | done].
      cbn [children set_children]. by apply get_set_value_other.
  - by rewrite update_child_value_unknown.
Qed.

Lemma update_child_value_frame_witness :
  get_desired_value 1 2 (update_child_value 1 24 (PStr "note") Sample.pending).2
  = Ok (PStr "1").
Proof.
  rewrite (update_child_value_frame Sample.pending 1 24 (PStr "note") 1 2).
  - vm_compute. reflexivity.
  - right. discriminate.
Defined.

(** *** Requesting *)

Section Requests.
Context `{Collaborators}.

(** The sensor that an accepted [set_child_desired_state] leaves. *)
Lemma set_child_desired_state_accepted (self : Sensor.t)
    (child_id value_type : Z) (value : pyval) (shadow : ChildSensor.t) :
  new_state self !! child_id = Some shadow →
  validate_child_state child_id value_type value self = Ok true →
  set_child_desired_state child_id value_type value self
  = (Ok tt,
     set_new_state self
       (<[child_id := ChildSensor.set_value shadow value_type value]>
          (new_state self))).
Proof.
  intros En Hv. unfold set_child_desired_state.
  assert (contains (new_state self) child_id = true) as ->
    by (apply contains_true; eauto).
  by rewrite Hv, (subscript_Some _ _ _ En).
Qed.

(** Unless the child has a shadow and the value is validated,
    [set_child_desired_state] leaves the sensor as it is. *)
Lemma set_child_desired_state_same (self : Sensor.t)
    (child_id value_type : Z) (value : pyval) :
  new_state self !! child_id = None
  ∨ validate_child_state child_id value_type value self ≠ Ok true →
  (set_child_desired_state child_id value_type value self).2 = self.
Proof.
  unfold set_child_desired_state. intros [En | Hv].
  - apply contains_false in En. by rewrite En.
  - destruct (negb _); [done|].
    destruct (validate_child_state _ _ _ _) as [[]|]; try done.
Qed.

(** X4: once a desired value is accepted for a registered child,
    [get_desired_value] returns it when it is truthy and the actual value
    otherwise; the next [update_child_value] for that value type settles
    the request, and the value received is what is returned from then on. *)
Theorem desire_then_read (self : Sensor.t) (child_id value_type : Z)
    (value : pyval) (child shadow : ChildSensor.t) :
  children self !! child_id = Some child →
  new_state self !! child_id = Some shadow →
  validate_child_state child_id value_type value self = Ok true →
  let self' := (set_child_desired_state child_id value_type value self).2 in
  get_desired_value child_id value_type self'
  = Ok (if truthy value then value
        else get (ChildSensor.values child) value_type)
  ∧ ∀ received,
      get_desired_value child_id value_type
        (update_child_value child_id value_type received self').2
      = Ok received.
Proof.
  intros Ec En Hv self'. unfold self'.
  rewrite (set_child_desired_state_accepted _ _ _ _ _ En Hv). simpl. split.
  - unfold get_desired_value. cbn [children set_new_state].
    rewrite (subscript_Some _ _ _ Ec). simpl.
    rewrite (smart_sleep_insert_known _ _ _ _ En).
    rewrite (smart_sleep_of_shadow _ _ _ En). cbn [new_state set_new_state].
    rewrite (subscript_Some _ _
               (ChildSensor.set_value shadow value_type value))
      by apply lookup_insert_eq.
    simpl. unfold get at 1 2. simpl. rewrite lookup_insert_eq. simpl.
    by destruct (truthy value).
  - intros received.
    apply (read_after_update_tracked _ _ _ _ child
             (ChildSensor.set_value shadow value_type value)); [done|].
    apply lookup_insert_eq.
Qed.

(** X5: [set_child_desired_state] for one child and value type leaves what
    [get_desired_value] answers for every other child or value type as it
    was, whether the request is accepted or not. *)
Theorem set_child_desired_state_frame (self : Sensor.t)
    (child_id value_type : Z) (value : pyval) (child_id' value_type' : Z) :
  child_id' ≠ child_id ∨ value_type' ≠ value_type →
  get_desired_value child_id' value_type'
    (set_child_desired_state child_id value_type value self).2
  = get_desired_value child_id' value_type' self.
Proof.
  intros Hne.
  destruct (new_state self !! child_id) as [shadow|] eqn:En;
    [|by rewrite set_child_desired_state_same by eauto].
  destruct (validate_child_state child_id value_type value self)
    as [[]|e] eqn:Hv;
    [| rewrite set_child_desired_state_same; [done | right; congruence] ..].
  rewrite (set_child_desired_state_accepted _ _ _ _ _ En Hv). simpl.
  apply get_desired_value_ext.
  - by rewrite (smart_sleep_insert_known _ _ _ _ En).
  - done.
  - cbn [new_state set_new_state]. by apply get_set_value_other.
Qed.

End Requests.

Lemma desire_then_read_witness :
  get_desired_value 1 2
    (@set_child_desired_state Sample.collaborators 1 2 (PStr "1")
       Sample.sleepy).2
  = Ok (PStr "1").
Proof.
  apply (proj1 (@desire_then_read Sample.collaborators Sample.sleepy 1 2
                  (PStr "1") (ChildSensor.mk 1 3 "switch" ∅)
                  (ChildSensor.mk 1 3 "switch" ∅) eq_refl eq_refl eq_refl)).
Defined.

Lemma set_child_desired_state_frame_witness :
  get_desired_value 1 24
    (@set_child_desired_state Sample.collaborators 1 2 (PStr "1")
       Sample.sleepy).2
  = Ok PNone.
Proof.
  rewrite (@set_child_desired_state_frame Sample.collaborators Sample.sleepy
             1 2 (PStr "1") 1 24).
  - vm_compute. reflexivity.
  - right. discriminate.
Defined.

Section Validation.
Context `{Collaborators}.

(** X6: [validate_child_state] returns [True] exactly when the constant
    table of the sensor's version is found, the set message built from the
    arguments has a wire form and [Message.validate] accepts it.  It looks
    at the sensor's id and protocol version only: whether the child is
    registered, and of what type, plays no part. *)
Theorem validate_child_state_true (self : Sensor.t) (child_id value_type : Z)
    (value : pyval) :
  (validate_child_state child_id value_type value self = Ok true
   ↔ ∃ const,
       get_const (protocol_version self) = Ok const
       ∧ let msg :=
           {| node_id := sensor_id self; msg_child_id := child_id;
              msg_type := MessageType_set const; sub_type := value_type;
              payload := value |} in
         is_Some (Message_encode msg)
         ∧ Message_validate msg (protocol_version self) = Ok tt)
  ∧ ∀ other,
      sensor_id other = sensor_id self →
      protocol_version other = protocol_version self →
      validate_child_state child_id value_type value other
      = validate_child_state child_id value_type value self.
Proof.
  unfold validate_child_state. split.
  - destruct (get_const (protocol_version self)) as [const|e]; simpl.
    + destruct (Message_encode _) as [wire|] eqn:Henc.
      * destruct (Message_validate _ _) as [[]|[]] eqn:Hval; split;
          try discriminate; try (intros (c & [= <-] & _ & Hv); simpl in Hv;
                                 congruence).
        intros _. exists const. split; [done|]. simpl.
        rewrite Henc, Hval. eauto.
      * split; [discriminate|].
        intros (c & [= <-] & [w Hw] & _). simpl in Hw. congruence.
    + split; [discriminate | by intros (c & Hc & _)].
  - intros other Hid Hpv. by rewrite Hid, Hpv.
Qed.

(** X7: [set_child_desired_state] raises exactly when the child has a
    shadow and [validate_child_state] raises, and it raises the same
    exception; in particular a failure of [get_const] for the sensor's
    protocol version comes through.  Whatever the outcome, the sensor is
    left as it was unless the child has a shadow and the value is
    validated. *)
Theorem set_child_desired_state_raises (self : Sensor.t)
    (child_id value_type : Z) (value : pyval) :
  (∀ e, (set_child_desired_state child_id value_type value self).1 = Raise e
        ↔ is_Some (new_state self !! child_id)
          ∧ validate_child_state child_id value_type value self = Raise e)
  ∧ (∀ e, is_Some (new_state self !! child_id) →
          get_const (protocol_version self) = Raise e →
          set_child_desired_state child_id value_type value self
          = (Raise e, self))
  ∧ ((set_child_desired_state child_id value_type value self).2 = self
     ∨ (is_Some (new_state self !! child_id)
        ∧ validate_child_state child_id value_type value self = Ok true)).
Proof.
  unfold set_child_desired_state. split; [|split].
  - intros e.
    destruct (new_state self !! child_id) as [shadow|] eqn:En.
    + assert (contains (new_state self) child_id = true) as ->
        by (apply contains_true; eauto).
      rewrite (subscript_Some _ _ _ En). simpl.
      destruct (validate_child_state _ _ _ _) as [[]|e']; simpl; split;
        try discriminate; try (intros [_ ?]; discriminate).
      * intros [= ->]. eauto.
      * by intros [_ [= ->]].
    + assert (contains (new_state self) child_id = false) as ->
        by (by apply contains_false).
      simpl. split; [discriminate|]. intros [[? ?] _]. discriminate.
  - intros e Hin Hconst. apply contains_true in Hin. rewrite Hin. simpl.
    unfold validate_child_state. by rewrite Hconst.
  - destruct (contains (new_state self) child_id) eqn:Hin; simpl; [|by left].
    apply contains_true in Hin.
    destruct (validate_child_state _ _ _ _) as [[]|e']; simpl;
      [| by left | by left].
    by right.
Qed.

End Validation.

Lemma set_child_desired_state_raises_witness :
  @set_child_desired_state Sample.collaborators 1 2 (PStr "1")
    (set__protocol_version Sample.sleepy "2.0")
  = (Raise (OtherError "unknown protocol version"),
     set__protocol_version Sample.sleepy "2.0").
Proof.
  apply (proj1 (proj2 (@set_child_desired_state_raises Sample.collaborators
                         (set__protocol_version Sample.sleepy "2.0") 1 2
                         (PStr "1")))).
  - vm_compute. eauto.
  - reflexivity.
Defined.

Lemma validate_child_state_true_witness :
  @validate_child_state Sample.collaborators 1 2 (PStr "1") Sample.grown
  = @validate_child_state Sample.collaborators 1 2 (PStr "1") Sample.node.
Proof.
  apply (proj2 (@validate_child_state_true Sample.collaborators Sample.node
                  1 2 (PStr "1")) Sample.grown); reflexivity.
Defined.

(** *** Registering and tracking *)

(** X8: registering the same id a second time, with whatever type and
    description, returns nothing and leaves the sensor as the first call
    left it. *)
Theorem add_child_sensor_twice (self : Sensor.t) (child_id : Z)
    (child_type child_type' : Z) (description description' : string) :
  let self' := (add_child_sensor child_id child_type description self).2 in
  add_child_sensor child_id child_type' description' self' = (None, self').
Proof.
  intros self'. unfold add_child_sensor at 1.
  assert (contains (children self') child_id = true) as ->; [|done].
  apply contains_true. unfold self', add_child_sensor.
  destruct (contains (children self) child_id) eqn:E; simpl.
  - by apply contains_true.
  - rewrite lookup_insert_eq. eauto.
Qed.

Lemma new_state_init_is_Some (self : Sensor.t) (k : Z) (child : ChildSensor.t) :
  children self !! k = Some child →
  is_Some (new_state (init_smart_sleep_mode self) !! ChildSensor.id child).
Proof.
  intros Hk. rewrite init_smart_sleep_mode_lookup.
  destruct (new_state self !! ChildSensor.id child); [eauto|].
  destruct (first_with_id_is_Some (map_to_list (children self)).*2 child)
    as [c' ->]; [|simpl; eauto].
  apply elem_of_values. eauto.
Qed.

(** A shadow that [init_smart_sleep_mode] creates has no values. *)
Lemma new_state_init_fresh (self : Sensor.t) (k : Z) (shadow : ChildSensor.t) :
  new_state self !! k = None →
  new_state (init_smart_sleep_mode self) !! k = Some shadow →
  ChildSensor.values shadow = ∅.
Proof.
  intros Hnone. rewrite init_smart_sleep_mode_lookup, Hnone.
  destruct (first_with_id k _); simpl; [|discriminate].
  by intros [= <-].
Qed.

(** X9: a child registered while the node is under smart-sleep tracking
    has no shadow: [get_desired_value] raises [KeyError] for it until
    [init_smart_sleep_mode] runs again, after which it returns [None] for
    every value type. *)
Theorem registered_while_tracking (self : Sensor.t) (child_id child_type : Z)
    (description : string) (value_type : Z) :
  is_smart_sleep_node self = true →
  children self !! child_id = None →
  new_state self !! child_id = None →
  let self' := (add_child_sensor child_id child_type description self).2 in
  get_desired_value child_id value_type self' = Raise (KeyError child_id)
  ∧ get_desired_value child_id value_type (init_smart_sleep_mode self')
    = Ok PNone.
Proof.
  intros Hs Ec En self'.
  assert (self' = set_children self
            (<[child_id :=
                 ChildSensor.__init__ child_id child_type description]>
               (children self))) as Hself'.
  { unfold self', add_child_sensor. apply contains_false in Ec.
    by rewrite Ec. }
  assert (children self' !! child_id
          = Some (ChildSensor.__init__ child_id child_type description))
    as Ec' by (rewrite Hself'; apply lookup_insert_eq).
  split.
  - unfold get_desired_value. rewrite (subscript_Some _ _ _ Ec'). simpl.
    rewrite Hself'. change (is_smart_sleep_node (set_children self _))
      with (is_smart_sleep_node self). rewrite Hs. simpl.
    change (new_state (set_children self _)) with (new_state self).
    by rewrite (subscript_None _ _ En).
  - destruct (new_state_init_is_Some self' child_id _ Ec') as [shadow Hsh].
    change (ChildSensor.id (ChildSensor.__init__ child_id child_type
                              description)) with child_id in Hsh.
    assert (ChildSensor.values shadow = ∅) as Hvalues.
    { apply (new_state_init_fresh self' child_id); [|done].
      by rewrite Hself'. }
    unfold get_desired_value.
    change (children (init_smart_sleep_mode self')) with (children self').
    rewrite (subscript_Some _ _ _ Ec').
    rewrite (smart_sleep_of_shadow _ _ _ Hsh), (subscript_Some _ _ _ Hsh).
    simpl. rewrite Hvalues. unfold get. by rewrite lookup_empty.
Qed.

Lemma registered_while_tracking_witness :
  get_desired_value 2 2 Sample.grown = Raise (KeyError 2)
  ∧ get_desired_value 2 2 (init_smart_sleep_mode Sample.grown) = Ok PNone.
Proof.
  apply (registered_while_tracking Sample.sleepy 2 3 "second switch" 2);
    reflexivity.
Defined.

(** X10: after [init_smart_sleep_mode] on a sensor whose children are filed
    under their ids and whose shadows all have a child, the shadows are
    filed under the very keys of the children, and [get_desired_value]
    returns for every registered child and raises for no other reason than
    an unknown child. *)
Theorem init_smart_sleep_mode_covers (self : Sensor.t) :
  well_formed self →
  let self' := init_smart_sleep_mode self in
  (∀ k, is_Some (new_state self' !! k) ↔ is_Some (children self !! k))
  ∧ (∀ child_id value_type,
       (∃ v, get_desired_value child_id value_type self' = Ok v)
       ↔ is_Some (children self !! child_id)).
Proof.
  intros Hwf self'.
  assert (∀ k, is_Some (new_state self' !! k) ↔ is_Some (children self !! k))
    as Hkeys.
  { intros k. split.
    - apply (init_smart_sleep_mode_well_formed self Hwf).
    - intros [child Hk].
      pose proof (new_state_init_is_Some self k child Hk) as Hs.
      by rewrite (proj2 Hwf k child Hk) in Hs. }
  split; [exact Hkeys|]. intros child_id value_type.
  unfold get_desired_value.
  change (children self') with (children self).
  destruct (children self !! child_id) as [child|] eqn:Ec.
  - rewrite (subscript_Some _ _ _ Ec). split; [eauto|]. intros _.
    destruct (proj2 (Hkeys child_id)) as [shadow Hsh]; [eauto|].
    rewrite (smart_sleep_of_shadow _ _ _ Hsh), (subscript_Some _ _ _ Hsh).
    simpl. destruct (truthy _); eauto.
  - rewrite (subscript_None _ _ Ec). simpl.
    split; [intros [v Hv]; discriminate | intros [c Hc]; discriminate].
Qed.

Lemma init_smart_sleep_mode_covers_witness :
  ∃ v, get_desired_value 2 2 (init_smart_sleep_mode Sample.grown) = Ok v.
Proof.
  apply (proj2 (init_smart_sleep_mode_covers Sample.grown
                  (@reachable_well_formed Sample.collaborators Sample.grown
                     (ex_intro _ 7
                        (reachable_exec _ (AddChild 2 3 "second switch") _
                           (reachable_exec _ InitSmartSleep _
                              (reachable_exec _ (AddChild 1 3 "switch") _
                                 (reachable_start _)))))))
           2 2).
  vm_compute. eauto.
Defined.

(** X11: after [init_smart_sleep_mode] the node is under smart-sleep
    tracking exactly when it was before or has a child; on a sensor without
    children the call changes nothing. *)
Theorem init_smart_sleep_mode_tracking (self : Sensor.t) :
  (is_smart_sleep_node (init_smart_sleep_mode self) = true
   ↔ is_smart_sleep_node self = true ∨ children self ≠ ∅)
  ∧ (children self = ∅ → init_smart_sleep_mode self = self).
Proof.
  split.
  - rewrite !smart_sleep_iff. split.
    + intros Hne. apply map_choose in Hne as (k & shadow & Hk).
      rewrite init_smart_sleep_mode_lookup in Hk.
      destruct (new_state self !! k) as [old|] eqn:En.
      * left. intros Hempty. by rewrite Hempty, lookup_empty in En.
      * right. destruct (first_with_id k _) as [c|] eqn:Hf; [|discriminate].
        apply first_with_id_Some in Hf as [Hin _].
        apply elem_of_values in Hin as [j Hj].
        intros Hempty. by rewrite Hempty, lookup_empty in Hj.
    + intros [Hne | Hne]; apply map_choose in Hne as (k & x & Hk).
      * intros Hempty.
        assert (new_state (init_smart_sleep_mode self) !! k = Some x) as Hk'
          by (by rewrite init_smart_sleep_mode_lookup, Hk).
        by rewrite Hempty, lookup_empty in Hk'.
      * intros Hempty.
        destruct (new_state_init_is_Some self k x Hk) as [shadow Hsh].
        by rewrite Hempty, lookup_empty in Hsh.
  - intros Hempty. unfold init_smart_sleep_mode.
    rewrite Hempty, map_to_list_empty. simpl. by destruct self.
Qed.

Lemma init_smart_sleep_mode_tracking_witness :
  init_smart_sleep_mode (Sensor.__init__ 7) = Sensor.__init__ 7.
Proof.
  apply (proj2 (init_smart_sleep_mode_tracking (Sensor.__init__ 7))).
  reflexivity.
Defined.

(** *** What the operations keep *)

Lemma same_static_refl (c : ChildSensor.t) : same_static c c.
Proof. by repeat split. Qed.

Lemma same_static_trans (c1 c2 c3 : ChildSensor.t) :
  same_static c1 c2 → same_static c2 c3 → same_static c1 c3.
Proof.
  intros (? & ? & ?) (? & ? & ?). repeat split; congruence.
Qed.

Lemma same_static_set_value (c : ChildSensor.t) (vt : Z) (v : pyval) :
  same_static c (ChildSensor.set_value c vt v).
Proof. by repeat split. Qed.

(** The sensor after [update_child_value], in all cases. *)
Lemma update_child_value_cases (self : Sensor.t) (c vt : Z) (v : pyval) :
  let self' := (update_child_value c vt v self).2 in
  (children self !! c = None ∧ self' = self)
  ∨ (∃ child, children self !! c = Some child
       ∧ children self'
         = <[c := ChildSensor.set_value child vt v]> (children self)
       ∧ sensor_id self' = sensor_id self
       ∧ ((new_state self !! c = None ∧ new_state self' = new_state self)
          ∨ ∃ shadow, new_state self !! c = Some shadow
              ∧ new_state self'
                = <[c := ChildSensor.set_value shadow vt PNone]>
                    (new_state self))).
Proof.
  intros self'. unfold self'.
  destruct (children self !! c) as [child|] eqn:Ec.
  - right. exists child. split; [done|].
    rewrite (update_child_value_state _ _ _ _ _ Ec). cbn zeta.
    destruct (new_state self !! c) as [shadow|] eqn:En; simpl.
    + split; [done|]. split; [done|]. right. eauto.
    + split; [done|]. split; [done|]. by left.
  - left. by rewrite update_child_value_unknown.
Qed.

Section Kept.
Context `{Collaborators}.

(** The sensor after [set_child_desired_state], in all cases. *)
Lemma set_child_desired_state_cases (self : Sensor.t) (c vt : Z) (v : pyval) :
  let self' := (set_child_desired_state c vt v self).2 in
  self' = self
  ∨ ∃ shadow, new_state self !! c = Some shadow
      ∧ self' = set_new_state self
                  (<[c := ChildSensor.set_value shadow vt v]> (new_state self)).
Proof.
  intros self'. unfold self'.
  destruct (new_state self !! c) as [shadow|] eqn:En;
    [|left; apply set_child_desired_state_same; by left].
  destruct (validate_child_state c vt v self) as [[]|e] eqn:Hv;
    [| left; apply set_child_desired_state_same; right; congruence ..].
  right. exists shadow. split; [done|].
  by rewrite (set_child_desired_state_accepted _ _ _ _ _ En Hv).
Qed.

Lemma exec_children_static (o : op) (self : Sensor.t) (k : Z)
    (c : ChildSensor.t) :
  children self !! k = Some c →
  ∃ c', children (exec o self) !! k = Some c' ∧ same_static c c'.
Proof.
  intros Hk. destruct o; simpl.
  - exists c. split; [|apply same_static_refl].
    unfold add_child_sensor.
    destruct (contains (children self) child_id) eqn:E; simpl; [done|].
    apply contains_false in E. rewrite lookup_insert_ne; [done|congruence].
  - exists c. split; [done | apply same_static_refl].
  - exists c. split; [|apply same_static_refl].
    destruct (set_child_desired_state_cases self child_id value_type value)
      as [-> | (shadow & _ & ->)]; done.
  - destruct (update_child_value_cases self child_id value_type value)
      as [[_ ->] | (child & Hc & -> & _)].
    + exists c. split; [done | apply same_static_refl].
    + destruct (decide (child_id = k)) as [->|Hne].
      * rewrite lookup_insert_eq. eexists. split; [done|].
        replace c with child by congruence. apply same_static_set_value.
      * rewrite lookup_insert_ne by done.
        exists c. split; [done | apply same_static_refl].
  - exists c. split; [|apply same_static_refl].
    unfold set_battery_level. by destruct (is_battery_level _).
  - exists c. split; [|apply same_static_refl].
    unfold set_heartbeat. by destruct (is_heartbeat _).
  - exists c. split; [|apply same_static_refl].
    unfold set_protocol_version. by destruct (safe_is_version _).
  - exists c. split; [|apply same_static_refl]. rewrite reload_eq.
    destruct (is_battery_level _); simpl; [|done].
    destruct (is_heartbeat _); simpl; [|done].
    by destruct (safe_is_version _).
Qed.

Lemma exec_sensor_id (o : op) (self : Sensor.t) :
  sensor_id (exec o self) = sensor_id self.
Proof.
  destruct o; simpl.
  - unfold add_child_sensor. by destruct (contains _ _).
  - done.
  - by destruct (set_child_desired_state_cases self child_id value_type value)
      as [-> | (shadow & _ & ->)].
  - by destruct (update_child_value_cases self child_id value_type value)
      as [[_ ->] | (child & _ & _ & -> & _)].
  - unfold set_battery_level. by destruct (is_battery_level _).
  - unfold set_heartbeat. by destruct (is_heartbeat _).
  - unfold set_protocol_version. by destruct (safe_is_version _).
  - rewrite reload_eq.
    destruct (is_battery_level _); simpl; [|done].
    destruct (is_heartbeat _); simpl; [|done].
    by destruct (safe_is_version _).
Qed.

(** X12: whatever operations follow, registration, tracking, requests,
    received values, scalar assignments, saving and loading, the sensor
    keeps its id and every registered child stays registered under its key
    with the id, type and description it was registered with. *)
Theorem children_are_kept (start self : Sensor.t) :
  reachable_from start self →
  sensor_id self = sensor_id start
  ∧ ∀ k c, children start !! k = Some c →
      ∃ c', children self !! k = Some c' ∧ same_static c c'.
Proof.
  induction 1 as [|o self _ [IHid IHc]].
  - split; [done|]. intros k c Hk. exists c.
    split; [done | apply same_static_refl].
  - split; [by rewrite exec_sensor_id|]. intros k c Hk.
    destruct (IHc k c Hk) as (c1 & Hc1 & Hs1).
    destruct (exec_children_static o self k c1 Hc1) as (c2 & Hc2 & Hs2).
    exists c2. split; [done|]. by apply (same_static_trans c c1 c2).
Qed.

End Kept.

Lemma children_are_kept_witness :
  ∃ c', children Sample.grown !! 1 = Some c'
        ∧ same_static (ChildSensor.mk 1 3 "switch" ∅) c'.
Proof.
  apply (proj2 (@children_are_kept Sample.collaborators Sample.node
                  Sample.grown
                  (reachable_exec _ (AddChild 2 3 "second switch") _
                     (reachable_exec _ InitSmartSleep _
                        (reachable_start _))))
           1 (ChildSensor.mk 1 3 "switch" ∅)).
  reflexivity.
Defined.

Lemma same_static_fresh_shadow (c : ChildSensor.t) :
  same_static c (fresh_shadow c).
Proof. by repeat split. Qed.

Lemma init_smart_sleep_mode_mirror (self : Sensor.t) :
  keyed_by_id (children self) → shadows_mirror self →
  shadows_mirror (init_smart_sleep_mode self).
Proof.
  intros Hkeyed Hm k shadow Hk. rewrite init_smart_sleep_mode_lookup in Hk.
  change (children (init_smart_sleep_mode self)) with (children self).
  destruct (new_state self !! k) as [old|] eqn:En.
  - injection Hk as <-. by apply Hm.
  - destruct (first_with_id k _) as [c|] eqn:Hf; [|discriminate].
    injection Hk as <-.
    apply first_with_id_Some in Hf as [Hin Hid].
    apply elem_of_values in Hin as [j Hj].
    pose proof (Hkeyed _ _ Hj) as Hkey. split; [done|].
    exists c. split; [|apply same_static_fresh_shadow]. congruence.
Qed.

Lemma add_child_sensor_mirror (c ty : Z) (d : string) (self : Sensor.t) :
  shadows_mirror self → shadows_mirror (add_child_sensor c ty d self).2.
Proof.
  intros Hm. unfold add_child_sensor.
  destruct (contains (children self) c) eqn:E; simpl; [done|].
  apply contains_false in E. intros k shadow Hk. simpl in *.
  destruct (Hm k shadow Hk) as (Hid & child & Hchild & Hs).
  split; [done|]. exists child. split; [|done].
  rewrite lookup_insert_ne; [done | congruence].
Qed.

Lemma update_child_value_mirror (c vt : Z) (v : pyval) (self : Sensor.t) :
  shadows_mirror self → shadows_mirror (update_child_value c vt v self).2.
Proof.
  intros Hm.
  destruct (update_child_value_cases self c vt v)
    as [[_ ->] | (child & Hc & Hch & _ & Hns)]; [done|].
  intros k shadow Hk. rewrite Hch.
  assert (∃ old, new_state self !! k = Some old ∧ same_static old shadow)
    as (old & Hold & Hso).
  { destruct Hns as [[_ Hsame] | (sh & Hsh & Hnew)].
    - rewrite Hsame in Hk. exists shadow. split; [done|].
      apply same_static_refl.
    - rewrite Hnew in Hk. destruct (decide (c = k)) as [->|Hne].
      + rewrite lookup_insert_eq in Hk. injection Hk as <-.
        exists sh. split; [done | apply same_static_set_value].
      + rewrite lookup_insert_ne in Hk by done. exists shadow.
        split; [done | apply same_static_refl]. }
  destruct (Hm k old Hold) as (Hid & kid & Hkid & Hs).
  split; [destruct Hso; congruence|].
  destruct (decide (c = k)) as [->|Hne].
  - rewrite lookup_insert_eq. eexists. split; [done|].
    replace child with kid by congruence.
    apply (same_static_trans _ kid); [|by apply (same_static_trans _ old)].
    destruct (same_static_set_value kid vt v) as (? & ? & ?).
    by repeat split.
  - rewrite lookup_insert_ne by done. exists kid. split; [done|].
    by apply (same_static_trans _ old).
Qed.

Section Mirror.
Context `{Collaborators}.

Lemma set_child_desired_state_mirror (c vt : Z) (v : pyval) (self : Sensor.t) :
  shadows_mirror self → shadows_mirror (set_child_desired_state c vt v self).2.
Proof.
  intros Hm.
  destruct (set_child_desired_state_cases self c vt v)
    as [-> | (sh & Hsh & ->)]; [done|].
  intros k shadow Hk. simpl in *.
  destruct (decide (c = k)) as [->|Hne].
  - rewrite lookup_insert_eq in Hk. injection Hk as <-.
    destruct (Hm k sh Hsh) as (Hid & child & Hchild & Hs).
    split; [done|]. exists child. split; [done|].
    apply (same_static_trans _ sh); [done | apply same_static_set_value].
  - rewrite lookup_insert_ne in Hk by done. by apply Hm.
Qed.

Lemma exec_mirror (o : op) (self : Sensor.t) :
  well_formed self → shadows_mirror self → shadows_mirror (exec o self).
Proof.
  intros [_ Hkeyed] Hm. destruct o; simpl.
  - by apply add_child_sensor_mirror.
  - by apply init_smart_sleep_mode_mirror.
  - by apply set_child_desired_state_mirror.
  - by apply update_child_value_mirror.
  - unfold set_battery_level. by destruct (is_battery_level _).
  - unfold set_heartbeat. by destruct (is_heartbeat _).
  - unfold set_protocol_version. by destruct (safe_is_version _).
  - rewrite reload_eq.
    destruct (is_battery_level _); simpl; [|done].
    destruct (is_heartbeat _); simpl; [|done].
    destruct (safe_is_version _); simpl; [|done].
    intros k shadow Hk. simpl in Hk. by rewrite lookup_empty in Hk.
Qed.

(** X13: in every sensor that a new sensor can become, each shadow is filed
    under its own id, the child under that key exists, and the shadow has
    the id, type and description of that child. *)
Theorem shadows_mirror_children (self : Sensor.t) :
  reachable self → shadows_mirror self.
Proof.
  intros [sensor_id Hreach].
  assert (well_formed self ∧ shadows_mirror self) as [_ Hm]; [|done].
  induction Hreach as [|o self _ [IHwf IHm]].
  - split; [apply init_well_formed|].
    intros k shadow Hk. simpl in Hk. by rewrite lookup_empty in Hk.
  - split; [by apply exec_well_formed | by apply exec_mirror].
Qed.

(** X14: registering a child, requesting or receiving a value and assigning
    a scalar neither add nor remove a shadow, and so leave the node under
    smart-sleep tracking exactly if it was; only [init_smart_sleep_mode]
    adds shadows and only loading removes them. *)
Theorem tracking_is_kept (o : op) (self : Sensor.t) :
  (keeps_tracking o = true →
     (∀ k, is_Some (new_state (exec o self) !! k)
           ↔ is_Some (new_state self !! k))
     ∧ is_smart_sleep_node (exec o self) = is_smart_sleep_node self)
  ∧ (o ≠ SaveLoad →
     ∀ k, is_Some (new_state self !! k) →
          is_Some (new_state (exec o self) !! k)).
Proof.
  assert (keeps_tracking o = true →
          (∀ k, is_Some (new_state (exec o self) !! k)
                ↔ is_Some (new_state self !! k))
          ∧ is_smart_sleep_node (exec o self) = is_smart_sleep_node self)
    as Hkeep.
  { destruct o; simpl; try discriminate; intros _.
    - unfold add_child_sensor. by destruct (contains _ _).
    - destruct (set_child_desired_state_cases self child_id value_type value)
        as [-> | (sh & Hsh & ->)]; [done|].
      split; [|by apply (smart_sleep_insert_known _ _ sh)].
      intros k. simpl. rewrite lookup_insert_is_Some.
      split; [intros [<- | [_ ?]]; eauto|].
      intros Hk. destruct (decide (child_id = k)); eauto.
    - destruct (update_child_value_cases self child_id value_type value)
        as [[_ ->] | (child & _ & _ & _ & Hns)]; [done|].
      unfold is_smart_sleep_node.
      destruct Hns as [[_ ->] | (sh & Hsh & ->)]; [done|].
      split; [|by rewrite map_size_insert_Some by eauto].
      intros k. rewrite lookup_insert_is_Some.
      split; [intros [<- | [_ ?]]; eauto|].
      intros Hk. destruct (decide (child_id = k)); eauto.
    - unfold set_battery_level. by destruct (is_battery_level _).
    - unfold set_heartbeat. by destruct (is_heartbeat _).
    - unfold set_protocol_version. by destruct (safe_is_version _). }
  split; [exact Hkeep|]. intros Hload k Hk.
  destruct (keeps_tracking o) eqn:Ho.
  - by apply Hkeep.
  - destruct o; try discriminate; [|done].
    change (exec InitSmartSleep self) with (init_smart_sleep_mode self).
    destruct Hk as [shadow Hk].
    rewrite init_smart_sleep_mode_lookup, Hk. eauto.
Qed.

(** X15: assignments to different scalars do not interfere: the sensor
    after two of them is the same in either order, whether they are
    accepted or not. *)
Theorem scalar_setters_commute (self : Sensor.t) (b h p : pyval) :
  (set_heartbeat h (set_battery_level b self).2).2
  = (set_battery_level b (set_heartbeat h self).2).2
  ∧ (set_protocol_version p (set_battery_level b self).2).2
    = (set_battery_level b (set_protocol_version p self).2).2
  ∧ (set_protocol_version p (set_heartbeat h self).2).2
    = (set_heartbeat h (set_protocol_version p self).2).2.
Proof.
  unfold set_battery_level, set_heartbeat, set_protocol_version.
  destruct (is_battery_level b), (is_heartbeat h), (safe_is_version p);
    by repeat split.
Qed.

End Mirror.

Lemma shadows_mirror_children_witness : shadows_mirror Sample.grown.
Proof.
  apply (@shadows_mirror_children Sample.collaborators).
  exists 7.
  exact (reachable_exec _ (AddChild 2 3 "second switch") _
           (reachable_exec _ InitSmartSleep _
              (reachable_exec _ (AddChild 1 3 "switch") _
                 (reachable_start _)))).
Defined.

Lemma tracking_is_kept_witness :
  is_smart_sleep_node
    (@exec Sample.collaborators (UpdateValue 1 2 (PStr "1")) Sample.sleepy)
  = is_smart_sleep_node Sample.sleepy.
Proof.
  apply (proj1 (@tracking_is_kept Sample.collaborators
                  (UpdateValue 1 2 (PStr "1")) Sample.sleepy)).
  reflexivity.
Defined.


(** *** Loading a saved sensor *)

Section Reload.
Context `{Collaborators}.

(** X16: a sensor that was saved and loaded is not under smart-sleep
    tracking, whatever was requested before: [get_desired_value] returns the
    actual value of every registered child and raises [KeyError] for any
    other id. *)
Theorem reload_forgets_requests (self : Sensor.t) (b h : Z) (p : string) :
  is_battery_level (PInt (battery_level self)) = Ok b →
  is_heartbeat (PInt (heartbeat self)) = Ok h →
  safe_is_version (PStr (protocol_version self)) = Ok p →
  ∃ self',
    reload self = Some self'
    ∧ is_smart_sleep_node self' = false
    ∧ ∀ child_id value_type,
        get_desired_value child_id value_type self'
        = match children self !! child_id with
          | Some child => Ok (get (ChildSensor.values child) value_type)
          | None => Raise (KeyError child_id)
          end.
Proof.
  intros Hb Hh Hp. rewrite reload_eq.
  unfold battery_level, heartbeat, protocol_version in *.
  rewrite Hb, Hh, Hp. eexists. split; [reflexivity|]. split; [reflexivity|].
  intros child_id value_type. unfold get_desired_value, subscript. simpl.
  by destruct (children self !! child_id).
Qed.

(** X17: when the validators return the stored scalars as they are, saving
    and loading gives the sensor back with its transient attributes reset,
    and doing it again changes nothing more. *)
Theorem reload_round_trip (self : Sensor.t) :
  is_battery_level (PInt (battery_level self)) = Ok (battery_level self) →
  is_heartbeat (PInt (heartbeat self)) = Ok (heartbeat self) →
  safe_is_version (PStr (protocol_version self)) = Ok (protocol_version self) →
  reload self = Some (reset self)
  ∧ reload (reset self) = Some (reset self).
Proof.
  intros Hb Hh Hp. rewrite !reload_eq.
  unfold battery_level, heartbeat, protocol_version in *. simpl.
  by rewrite Hb, Hh, Hp.
Qed.

End Reload.

Lemma reload_forgets_requests_witness :
  ∃ self',
    @reload Sample.collaborators Sample.pending = Some self'
    ∧ get_desired_value 1 2 self' = Ok PNone.
Proof.
  destruct (@reload_forgets_requests Sample.collaborators Sample.pending
              0 0 "1.4" eq_refl eq_refl eq_refl) as (self' & Hl & _ & Hr).
  exists self'. split; [exact Hl | exact (Hr 1 2)].
Defined.

Lemma reload_round_trip_witness :
  @reload Sample.collaborators Sample.busy = Some (reset Sample.busy).
Proof.
  apply (proj1 (@reload_round_trip Sample.collaborators Sample.busy
                  eq_refl eq_refl eq_refl)).
Defined.

(** *** Loading any record *)

Lemma has_store (key key' : string) (val : attr) (d : pydict) :
  Attr.has key (Attr.store key' val d) = String.eqb key key' || Attr.has key d.
Proof.
  induction d as [|[k v] d IH]; simpl.
  - by destruct (String.eqb key key').
  - destruct (String.eqb_spec key' k) as [->|Hne]; simpl.
    + by destruct (String.eqb key k).
    + rewrite IH. destruct (String.eqb key k); [|done].
      by rewrite orb_true_r.
Qed.

Lemma lookup_Some_has (key : string) (d : pydict) (val : attr) :
  Attr.lookup key d = Some val → Attr.has key d = true.
Proof.
  induction d as [|[k v] d IH]; simpl; [done|].
  destruct (String.eqb key k); eauto.
Qed.

Lemma has_false_lookup (key : string) (d : pydict) :
  Attr.has key d = false → Attr.lookup key d = None.
Proof.
  induction d as [|[k v] d IH]; simpl; [done|].
  destruct (String.eqb key k); [discriminate | eauto].
Qed.

Lemma has_In (key : string) (d : pydict) :
  Attr.has key d = true ↔ In key (map fst d).
Proof.
  induction d as [|[k v] d IH]; simpl.
  - split; [discriminate | intros []].
  - destruct (String.eqb_spec key k) as [->|Hne].
    + split; eauto.
    + rewrite IH. split; [eauto | intros [?|?]; congruence].
Qed.

Section AnyRecord.
Context `{Collaborators}.

(** [setattr] stores under the backing name only, unless it replaces the
    instance dictionary. *)
Lemma setattr_lookup (obj obj' : pydict) (k : string) (v : attr)
    (key : string) :
  setattr obj k v = Ok obj' → k ≠ "__dict__" → key ≠ backing_name k →
  Attr.lookup key obj' = Attr.lookup key obj.
Proof.
  unfold setattr, backing_name.
  destruct (String.eqb k "battery_level").
  { destruct (scalar v); simpl; [|done].
    destruct (is_battery_level _); simpl; [|done].
    intros [= <-] _ Hne. by apply lookup_store_ne. }
  destruct (String.eqb k "heartbeat").
  { destruct (scalar v); simpl; [|done].
    destruct (is_heartbeat _); simpl; [|done].
    intros [= <-] _ Hne. by apply lookup_store_ne. }
  destruct (String.eqb k "protocol_version").
  { destruct (scalar v); simpl; [|done].
    destruct (safe_is_version _); simpl; [|done].
    intros [= <-] _ Hne. by apply lookup_store_ne. }
  destruct (String.eqb k "is_smart_sleep_node"); [done|].
  destruct (String.eqb_spec k "__dict__") as [->|_]; [done|].
  destruct (String.eqb k "__class__"); [done|].
  destruct (String.eqb k "__weakref__"); [done|].
  intros [= <-] _ Hne. by apply lookup_store_ne.
Qed.

(** A name that is no property is stored as it is. *)
Lemma setattr_plain (obj obj' : pydict) (k : string) (v : attr) :
  is_property k = false → setattr obj k v = Ok obj' →
  obj' = Attr.store k v obj.
Proof.
  unfold is_property, setattr. simpl.
  destruct (String.eqb k "battery_level"); [done|].
  destruct (String.eqb k "heartbeat"); [done|].
  destruct (String.eqb k "protocol_version"); [done|].
  destruct (String.eqb k "is_smart_sleep_node"); [done|].
  destruct (String.eqb k "__dict__"); [done|].
  destruct (String.eqb k "__class__"); [done|].
  destruct (String.eqb k "__weakref__"); [done|].
  by intros _ [= <-].
Qed.

Lemma restore_lookup_absent (items obj obj' : pydict) (key : string) :
  restore items obj = Ok obj' →
  ¬ In "__dict__" (map fst items) →
  (∀ k, In k (map fst items) → backing_name k ≠ key) →
  Attr.lookup key obj' = Attr.lookup key obj.
Proof.
  revert obj. induction items as [|[k v] items IH]; intros obj; simpl.
  - by intros [= <-].
  - destruct (setattr obj k v) as [obj1|] eqn:Hset; simpl; [|done].
    intros Hrest Hdict Hback. rewrite (IH obj1 Hrest) by eauto.
    apply (setattr_lookup _ _ _ _ _ Hset).
    + intros ->. apply Hdict. by left.
    + intros ->. apply (Hback k); [by left | done].
Qed.

Lemma restore_lookup_present (items obj obj' : pydict) (key : string)
    (val : attr) :
  NoDup (map fst items) →
  ¬ In "__dict__" (map fst items) →
  is_property key = false →
  (∀ k, In k (map fst items) → k ≠ key → backing_name k ≠ key) →
  Attr.lookup key items = Some val →
  restore items obj = Ok obj' →
  Attr.lookup key obj' = Some val.
Proof.
  intros Hnodup Hdict Hplain. revert obj.
  induction items as [|[k v] items IH]; intros obj Hback; simpl; [done|].
  apply NoDup_cons in Hnodup as [Hfresh Hnodup]. simpl in Hdict.
  destruct (setattr obj k v) as [obj1|] eqn:Hset; simpl;
    [|by destruct (String.eqb key k)].
  destruct (String.eqb_spec key k) as [<-|Hne].
  - intros [= <-] Hrest.
    rewrite (restore_lookup_absent _ _ _ key Hrest).
    + rewrite (setattr_plain _ _ _ _ Hplain Hset). apply lookup_store_eq.
    + eauto.
    + intros k Hk. apply Hback; [by right|].
      intros ->. apply Hfresh. by apply list_elem_of_In.
  - intros Hval Hrest. apply (IH Hnodup ltac:(eauto) obj1); [|done|done].
    intros k' Hk'. apply Hback. by right.
Qed.

(** X18: when a record without a [__dict__] entry is loaded, an attribute
    of the record, apart from the three properties, the read-only property,
    [__class__], [__weakref__] and the three transients, is on the loaded
    object with the value the record has for it, provided the record does
    not also hold the property that is stored under that name.  This
    includes the private names: a record that holds [_battery_level] itself
    gets that value stored without any validation. *)
Theorem setstate_restores (state obj : pydict) (key : string) (val : attr) :
  NoDup (map fst state) →
  ¬ In "__dict__" (map fst state) →
  is_property key = false →
  key ≠ "new_state" → key ≠ "queue" → key ≠ "reboot" →
  (∀ k, In k (map fst state) → k ≠ key → backing_name k ≠ key) →
  Attr.lookup key state = Some val →
  __setstate__ state = Ok obj →
  Attr.lookup key obj = Some val.
Proof.
  intros Hnodup Hdict Hplain Hn Hq Hr Hback Hval. unfold __setstate__.
  destruct (restore state []) as [o|] eqn:Hrest; simpl; [|done].
  pose proof (restore_lookup_present _ _ _ _ _ Hnodup Hdict Hplain Hback Hval
                Hrest) as Ho.
  assert (Attr.lookup key
            (Attr.store "reboot" (AVal (PBool false))
               (Attr.store "queue" (ADeque [])
                  (Attr.store "new_state" (ADict ∅) o))) = Some val) as Ho'.
  { by rewrite !lookup_store_ne. }
  destruct (negb _) eqn:Hhb.
  - destruct (is_heartbeat _); simpl; [|done]. intros [= <-].
    rewrite lookup_store_ne; [done|]. intros ->.
    apply lookup_Some_has in Ho'. by rewrite Ho' in Hhb.
  - by intros [= <-].
Qed.

Lemma has_cons (key k : string) (v : attr) (d : pydict) :
  Attr.has key ((k, v) :: d) = String.eqb key k || Attr.has key d.
Proof. simpl. by destruct (String.eqb key k). Qed.

(** An assignment under a name other than [heartbeat] and [_heartbeat]
    gives the object no [_heartbeat]. *)
Lemma setattr_no_heartbeat (obj obj' : pydict) (k : string) (v : attr) :
  k ≠ "heartbeat" → k ≠ "_heartbeat" →
  Attr.has "_heartbeat" obj = false →
  setattr obj k v = Ok obj' →
  Attr.has "_heartbeat" obj' = false.
Proof.
  intros Hpub Hpriv Hobj. unfold setattr.
  destruct (String.eqb k "battery_level").
  { destruct (scalar v); simpl; [|done].
    destruct (is_battery_level _); simpl; [|done].
    intros [= <-]. by rewrite has_store, Hobj. }
  destruct (String.eqb_spec k "heartbeat") as [->|_]; [done|].
  destruct (String.eqb k "protocol_version").
  { destruct (scalar v); simpl; [|done].
    destruct (safe_is_version _); simpl; [|done].
    intros [= <-]. by rewrite has_store, Hobj. }
  destruct (String.eqb k "is_smart_sleep_node"); [done|].
  destruct (String.eqb k "__dict__").
  { destruct v; [done | by intros [= <-] | done]. }
  destruct (String.eqb k "__class__"); [done|].
  destruct (String.eqb k "__weakref__"); [done|].
  intros [= <-]. rewrite has_store, Hobj.
  destruct (String.eqb_spec "_heartbeat" k) as [<-|_]; done.
Qed.

Lemma restore_no_heartbeat (items obj obj' : pydict) :
  restore items obj = Ok obj' →
  Attr.has "_heartbeat" obj = false →
  Attr.has "heartbeat" items = false →
  Attr.has "_heartbeat" items = false →
  Attr.has "_heartbeat" obj' = false.
Proof.
  revert obj. induction items as [|[k v] items IH]; intros obj.
  - by intros [= <-].
  - cbn [restore]. destruct (setattr obj k v) as [obj1|] eqn:Hset;
      cbn [Py.bind]; [|done].
    rewrite !has_cons. intros Hrest Hobj Hpub Hpriv.
    apply orb_false_elim in Hpub as [Hpub Hpub'].
    apply orb_false_elim in Hpriv as [Hpriv Hpriv'].
    apply String.eqb_neq in Hpub, Hpriv.
    apply (IH obj1); [done| |done|done].
    by apply (setattr_no_heartbeat obj obj1 k v).
Qed.

(** X19: a record that holds neither [heartbeat] nor [_heartbeat] loads
    with the heartbeat that [is_heartbeat] returns for [0]; when
    [is_heartbeat] rejects [0], loading raises what it raises. *)
Theorem setstate_default_heartbeat (state restored : pydict) :
  Attr.has "heartbeat" state = false →
  Attr.has "_heartbeat" state = false →
  restore state [] = Ok restored →
  (∀ h, is_heartbeat (PInt 0) = Ok h →
     ∃ obj, __setstate__ state = Ok obj
            ∧ Attr.lookup "_heartbeat" obj = Some (AVal (PInt h)))
  ∧ (∀ e, is_heartbeat (PInt 0) = Raise e → __setstate__ state = Raise e).
Proof.
  intros Hpub Hpriv Hrest. unfold __setstate__. rewrite Hrest. simpl.
  rewrite !has_store, (restore_no_heartbeat _ _ _ Hrest) by done.
  simpl. split.
  - intros h ->. simpl. eexists. split; [done|]. apply lookup_store_eq.
  - by intros e ->.
Qed.

End AnyRecord.

Lemma setstate_restores_witness :
  ∃ obj,
    @__setstate__ Sample.collaborators
      [("sensor_id", AVal (PInt 7)); ("_battery_level", AVal (PInt 250))]
    = Ok obj
    ∧ Attr.lookup "_battery_level" obj = Some (AVal (PInt 250)).
Proof.
  eexists. split; [vm_compute; reflexivity|].
  apply (@setstate_restores Sample.collaborators
           [("sensor_id", AVal (PInt 7)); ("_battery_level", AVal (PInt 250))]
           _ "_battery_level" (AVal (PInt 250)));
    [ | | reflexivity | done | done | done | | reflexivity
    | vm_compute; reflexivity ].
  - repeat constructor; simpl; intros Hin;
      repeat (apply elem_of_cons in Hin as [Hin|Hin]; [discriminate|]);
      by apply not_elem_of_nil in Hin.
  - intros [Hin|[Hin|[]]]; discriminate.
  - intros k [<-|[<-|[]]]; done.
Defined.

Lemma setstate_default_heartbeat_witness :
  ∃ obj,
    @__setstate__ Sample.collaborators [("sensor_id", AVal (PInt 7))] = Ok obj
    ∧ Attr.lookup "_heartbeat" obj = Some (AVal (PInt 0)).
Proof.
  apply (proj1 (@setstate_default_heartbeat Sample.collaborators
                  [("sensor_id", AVal (PInt 7))]
                  [("sensor_id", AVal (PInt 7))] eq_refl eq_refl eq_refl)).
  reflexivity.
Defined.


(** *** Saving any attribute dictionary *)

Lemma pop_value (key : string) (d : pydict) :
  (Attr.pop key d).1 = Attr.lookup key d.
Proof.
  induction d as [|[k v] d IH]; simpl; [done|].
  destruct (String.eqb key k); [done|].
  destruct (Attr.pop key d). by simpl in *.
Qed.

Lemma lookup_pop_ne (key key' : string) (d : pydict) :
  key ≠ key' → Attr.lookup key (Attr.pop key' d).2 = Attr.lookup key d.
Proof.
  intros Hne. induction d as [|[k v] d IH]; simpl; [done|].
  destruct (String.eqb_spec key' k) as [->|Hk]; simpl.
  - apply String.eqb_neq in Hne. by rewrite Hne.
  - destruct (Attr.pop key' d). simpl in *. by rewrite IH.
Qed.

Lemma pop_keys (key k : string) (d : pydict) :
  In k (map fst (Attr.pop key d).2) → In k (map fst d).
Proof.
  induction d as [|[k0 v] d IH]; simpl; [done|].
  destruct (String.eqb key k0); simpl; [eauto|].
  destruct (Attr.pop key d). simpl in *. intros [?|?]; eauto.
Qed.

Lemma pop_NoDup (key : string) (d : pydict) :
  NoDup (map fst d) → NoDup (map fst (Attr.pop key d).2).
Proof.
  induction d as [|[k v] d IH]; simpl; [done|].
  intros [Hfresh Hnodup]%NoDup_cons.
  destruct (String.eqb key k); simpl; [done|].
  specialize (IH Hnodup). pose proof (pop_keys key k d) as Hkeys.
  destruct (Attr.pop key d). simpl in *.
  apply NoDup_cons. split; [|done].
  intros Hin. apply Hfresh. apply list_elem_of_In, Hkeys.
  by apply list_elem_of_In.
Qed.

Lemma lookup_pop_eq (key : string) (d : pydict) :
  NoDup (map fst d) → Attr.lookup key (Attr.pop key d).2 = None.
Proof.
  induction d as [|[k v] d IH]; simpl; [done|].
  intros [Hfresh Hnodup]%NoDup_cons.
  destruct (String.eqb_spec key k) as [->|Hk]; simpl.
  - apply has_false_lookup. destruct (Attr.has k d) eqn:Hhas; [|done].
    apply has_In in Hhas. destruct Hfresh. by apply list_elem_of_In.
  - specialize (IH Hnodup). destruct (Attr.pop key d). simpl in *.
    apply String.eqb_neq in Hk. by rewrite Hk.
Qed.

Lemma store_keys (key k : string) (val : attr) (d : pydict) :
  In k (map fst (Attr.store key val d)) → k = key ∨ In k (map fst d).
Proof.
  induction d as [|[k0 v] d IH]; simpl; [intros [?|[]]; eauto|].
  destruct (String.eqb key k0); simpl; [eauto|].
  intros [?|?]; [eauto|]. destruct IH; eauto.
Qed.

Lemma store_NoDup (key : string) (val : attr) (d : pydict) :
  NoDup (map fst d) → NoDup (map fst (Attr.store key val d)).
Proof.
  induction d as [|[k v] d IH]; simpl.
  - intros _. apply NoDup_singleton.
  - intros [Hfresh Hnodup]%NoDup_cons.
    destruct (String.eqb_spec key k) as [->|Hk]; simpl.
    + by apply NoDup_cons.
    + apply NoDup_cons. split; [|eauto].
      intros Hin%list_elem_of_In. apply store_keys in Hin as [->|Hin];
        [done|]. apply Hfresh. by apply list_elem_of_In.
Qed.

Lemma getstate_step_NoDup (d : pydict) (attr : string) :
  NoDup (map fst d) → NoDup (map fst (getstate_step d attr)).
Proof.
  intros Hnodup. unfold getstate_step.
  pose proof (pop_NoDup attr d Hnodup) as Hpop.
  destruct (Attr.pop attr d) as [[v|] state]; simpl in *; [|done].
  destruct (is_None v); [done | by apply store_NoDup].
Qed.

(** One round of the loop: the private name goes, and its value, unless it
    is [None], is filed under the public name. *)
Lemma getstate_step_lookup (d : pydict) (attr key : string) :
  NoDup (map fst d) → public_name attr ≠ attr →
  Attr.lookup key (getstate_step d attr)
  = if String.eqb key attr then None
    else if String.eqb key (public_name attr) then
           match Attr.lookup attr d with
           | Some v => if is_None v then Attr.lookup key d else Some v
           | None => Attr.lookup key d
           end
    else Attr.lookup key d.
Proof.
  intros Hnodup Hpub. unfold getstate_step.
  pose proof (pop_value attr d) as Hvalue.
  pose proof (lookup_pop_eq attr d Hnodup) as Hgone.
  pose proof (λ Hne, lookup_pop_ne key attr d Hne) as Hother.
  destruct (Attr.pop attr d) as [value state]. simpl in *. subst value.
  destruct (String.eqb_spec key attr) as [->|Hne].
  - destruct (Attr.lookup attr d) as [v|]; [|done].
    destruct (is_None v); [done|]. by rewrite lookup_store_ne.
  - specialize (Hother Hne).
    destruct (String.eqb_spec key (public_name attr)) as [->|Hne'].
    + destruct (Attr.lookup attr d) as [v|]; [|done].
      destruct (is_None v); [done|]. apply lookup_store_eq.
    + destruct (Attr.lookup attr d) as [v|]; [|done].
      destruct (is_None v); [done|]. by rewrite lookup_store_ne.
Qed.

Lemma getstate_step_private (d : pydict) (attr : string) :
  NoDup (map fst d) → public_name attr ≠ attr →
  Attr.lookup attr (getstate_step d attr) = None.
Proof.
  intros Hnodup Hpub. rewrite getstate_step_lookup by done.
  by rewrite String.eqb_refl.
Qed.

Lemma getstate_step_public (d : pydict) (attr : string) :
  NoDup (map fst d) → public_name attr ≠ attr →
  Attr.lookup (public_name attr) (getstate_step d attr)
  = match Attr.lookup attr d with
    | Some v => if is_None v then Attr.lookup (public_name attr) d else Some v
    | None => Attr.lookup (public_name attr) d
    end.
Proof.
  intros Hnodup Hpub. rewrite getstate_step_lookup by done.
  apply String.eqb_neq in Hpub. by rewrite Hpub, String.eqb_refl.
Qed.

Lemma getstate_step_other (d : pydict) (attr key : string) :
  NoDup (map fst d) → public_name attr ≠ attr →
  key ≠ attr → key ≠ public_name attr →
  Attr.lookup key (getstate_step d attr) = Attr.lookup key d.
Proof.
  intros Hnodup Hpub Hne Hne'. rewrite getstate_step_lookup by done.
  apply String.eqb_neq in Hne, Hne'. by rewrite Hne, Hne'.
Qed.

(** X20: on any attribute dictionary the loop of [__getstate__] removes the
    three private names; each public name gets the value of its private
    name, over whatever it held, unless that value is missing or [None], in
    which case the public name is left as it was; every other attribute is
    saved as it is. *)
Theorem saved_record_spec (d : pydict) :
  NoDup (map fst d) →
  let moved private public :=
    Attr.lookup private (saved_record d) = None
    ∧ Attr.lookup public (saved_record d)
      = match Attr.lookup private d with
        | Some v => if is_None v then Attr.lookup public d else Some v
        | None => Attr.lookup public d
        end in
  moved "_battery_level" "battery_level"
  ∧ moved "_heartbeat" "heartbeat"
  ∧ moved "_protocol_version" "protocol_version"
  ∧ ∀ key,
      ¬ In key ["_battery_level"; "battery_level"; "_heartbeat"; "heartbeat";
                "_protocol_version"; "protocol_version"] →
      Attr.lookup key (saved_record d) = Attr.lookup key d.
Proof.
  intros Hnodup moved. unfold moved, saved_record.
  cbn [fold_left].
  set (d1 := getstate_step d "_battery_level").
  set (d2 := getstate_step d1 "_heartbeat").
  assert (NoDup (map fst d1)) as Hnodup1 by by apply getstate_step_NoDup.
  assert (NoDup (map fst d2)) as Hnodup2 by by apply getstate_step_NoDup.
  split; [split | split; [split | split; [split|]]].
  - rewrite (getstate_step_other d2) by done. unfold d2.
    rewrite (getstate_step_other d1) by done. unfold d1.
    by apply getstate_step_private.
  - rewrite (getstate_step_other d2) by done. unfold d2.
    rewrite (getstate_step_other d1) by done. unfold d1.
    by apply (getstate_step_public d "_battery_level").
  - rewrite (getstate_step_other d2) by done. unfold d2.
    by apply getstate_step_private.
  - rewrite (getstate_step_other d2) by done. unfold d2.
    pose proof (getstate_step_public d1 "_heartbeat" Hnodup1) as Hp.
    change (public_name "_heartbeat") with "heartbeat" in Hp.
    rewrite Hp by done.
    unfold d1. by rewrite !(getstate_step_other d) by done.
  - by apply getstate_step_private.
  - pose proof (getstate_step_public d2 "_protocol_version" Hnodup2) as Hp.
    change (public_name "_protocol_version") with "protocol_version" in Hp.
    rewrite Hp by done.
    unfold d2. rewrite !(getstate_step_other d1) by done.
    unfold d1. by rewrite !(getstate_step_other d) by done.
  - intros key Hkey. simpl in Hkey.
    rewrite (getstate_step_other d2); [|done|done|intros ->; tauto ..].
    unfold d2.
    rewrite (getstate_step_other d1); [|done|done|intros ->; tauto ..].
    unfold d1.
    rewrite (getstate_step_other d); [done|done|done|intros ->; tauto ..].
Qed.

Lemma saved_record_spec_witness :
  Attr.lookup "battery_level"
    (saved_record [("_battery_level", AVal PNone); ("sensor_id", AVal (PInt 7))])
  = None.
Proof.
  apply (proj2 (proj1 (saved_record_spec
                  [("_battery_level", AVal PNone); ("sensor_id", AVal (PInt 7))]
                  ltac:(repeat constructor; simpl; intros Hin;
                        repeat (apply elem_of_cons in Hin as [Hin|Hin];
                                [discriminate|]);
                        by apply not_elem_of_nil in Hin)))).
Defined.


(** *** Loading a saved child *)

Lemma child_lookup_store_eq (key : string) (val : ChildAttr.attr)
    (d : ChildAttr.pydict) :
  ChildAttr.lookup key (ChildAttr.store key val d) = Some val.
Proof.
  induction d as [|[k v] d IH]; simpl.
  - by rewrite String.eqb_refl.
  - destruct (String.eqb key k) eqn:E; simpl; by rewrite E.
Qed.

Lemma child_lookup_store_ne (key key' : string) (val : ChildAttr.attr)
    (d : ChildAttr.pydict) :
  key ≠ key' →
  ChildAttr.lookup key (ChildAttr.store key' val d) = ChildAttr.lookup key d.
Proof.
  intros Hne. apply String.eqb_neq in Hne.
  induction d as [|[k v] d IH]; simpl.
  - by rewrite Hne.
  - destruct (String.eqb key' k) eqn:E; simpl.
    + apply String.eqb_eq in E as ->. by rewrite Hne.
    + by rewrite IH.
Qed.

Lemma child_lookup_notin (key : string) (d : ChildAttr.pydict) :
  ¬ In key (map fst d) → ChildAttr.lookup key d = None.
Proof.
  induction d as [|[k v] d IH]; simpl; [done|]. intros Hnotin.
  destruct (String.eqb_spec key k) as [->|Hne]; [|eauto].
  destruct Hnotin. by left.
Qed.

Lemma child_has_lookup (key : string) (d : ChildAttr.pydict) :
  ChildAttr.has key d = match ChildAttr.lookup key d with
                        | Some _ => true
                        | None => false
                        end.
Proof.
  induction d as [|[k v] d IH]; simpl; [done|].
  by destruct (String.eqb key k).
Qed.

(** [update] with the items of a dictionary: its entries, over what was
    there. *)
Lemma child_update_lookup (state d : ChildAttr.pydict) (key : string) :
  NoDup (map fst state) →
  ChildAttr.lookup key (ChildAttr.update d state)
  = match ChildAttr.lookup key state with
    | Some v => Some v
    | None => ChildAttr.lookup key d
    end.
Proof.
  unfold ChildAttr.update. revert d.
  induction state as [|[k v] state IH]; intros d; simpl; [done|].
  intros [Hfresh Hnodup]%NoDup_cons. rewrite IH by done.
  destruct (String.eqb_spec key k) as [->|Hne].
  - rewrite child_lookup_notin, child_lookup_store_eq; [done|].
    intros Hin. apply Hfresh. by apply list_elem_of_In.
  - by rewrite child_lookup_store_ne.
Qed.

(** X21: a loaded child has every attribute of the record with the value
    the record has for it, and a description in any case: the empty string
    when the record has none. *)
Theorem child_setstate_spec (state : ChildAttr.pydict) :
  NoDup (map fst state) →
  ChildAttr.lookup "description" (ChildAttr.__setstate__ state)
  = Some (default (ChildAttr.AVal (PStr ""))
            (ChildAttr.lookup "description" state))
  ∧ ∀ key, key ≠ "description" →
      ChildAttr.lookup key (ChildAttr.__setstate__ state)
      = ChildAttr.lookup key state.
Proof.
  intros Hnodup. unfold ChildAttr.__setstate__.
  rewrite child_has_lookup, child_update_lookup by done. simpl.
  destruct (ChildAttr.lookup "description" state) as [v|] eqn:Hd; simpl.
  - split; [by rewrite child_update_lookup, Hd|].
    intros key _. rewrite child_update_lookup by done.
    by destruct (ChildAttr.lookup key state).
  - split; [apply child_lookup_store_eq|].
    intros key Hne. rewrite child_lookup_store_ne by done.
    rewrite child_update_lookup by done.
    by destruct (ChildAttr.lookup key state).
Qed.

Lemma child_setstate_spec_witness :
  ChildAttr.lookup "description"
    (ChildAttr.__setstate__ [("id", ChildAttr.AVal (PInt 1))])
  = Some (ChildAttr.AVal (PStr "")).
Proof.
  apply (proj1 (child_setstate_spec [("id", ChildAttr.AVal (PInt 1))]
                  ltac:(repeat constructor; simpl; intros Hin;
                        by apply not_elem_of_nil in Hin))).
Defined.

(** X22: loading the saved [__dict__] of a child gives the child back, and
    loading a record of a child that was saved without a description gives
    the child with an empty description. *)
Theorem child_round_trip (self : ChildSensor.t) :
  ChildAttr.of_dict (ChildAttr.__setstate__ (ChildAttr.__dict__ self))
  = Some self
  ∧ ChildAttr.of_dict
      (ChildAttr.__setstate__
         [ ("id", ChildAttr.AVal (PInt (ChildSensor.id self)));
           ("type", ChildAttr.AVal (PInt (ChildSensor.type self)));
           ("values", ChildAttr.AValues (ChildSensor.values self)) ])
    = Some (ChildSensor.mk (ChildSensor.id self) (ChildSensor.type self) ""
              (ChildSensor.values self)).
Proof. by destruct self. Qed.

(** *** When the schema of a child cannot be built *)

Lemma setreq_table_Ok (const : Const) (typs : list Z) (acc table : Schema) :
  ChildSensor.setreq_table const typs acc = Ok table →
  ∀ typ, typ ∈ typs → is_Some (VALID_SETREQ const !! typ).
Proof.
  revert acc. induction typs as [|t rest IH]; intros acc; simpl.
  - intros _ typ Hin. by apply not_elem_of_nil in Hin.
  - unfold subscript.
    destruct (VALID_SETREQ const !! t) as [check|] eqn:Ht; simpl; [|done].
    intros Hrest typ [->|Hin]%elem_of_cons; eauto.
Qed.

Section SchemaErrors.
Context `{Collaborators}.

(** X23: when the constant table of the version is found, [get_schema]
    returns exactly when the table lists the value types of the custom
    sensor and of the child's type and has a validator for each of them;
    for a child whose type the table does not list it raises [KeyError] for
    that type, and so does [validate]. *)
Theorem get_schema_returns (self : ChildSensor.t) (protocol_version : string)
    (const : Const) :
  get_const protocol_version = Ok const →
  ((∃ schema, ChildSensor.get_schema self protocol_version = Ok schema)
   ↔ ∃ custom_typs typs,
       VALID_TYPES const !! Presentation_S_CUSTOM const = Some custom_typs
       ∧ VALID_TYPES const !! ChildSensor.type self = Some typs
       ∧ ∀ typ, typ ∈ custom_typs ∨ typ ∈ typs →
                is_Some (VALID_SETREQ const !! typ))
  ∧ (∀ custom_typs,
       VALID_TYPES const !! Presentation_S_CUSTOM const = Some custom_typs →
       (∀ typ, typ ∈ custom_typs → is_Some (VALID_SETREQ const !! typ)) →
       VALID_TYPES const !! ChildSensor.type self = None →
       ChildSensor.get_schema self protocol_version
       = Raise (KeyError (ChildSensor.type self))
       ∧ ∀ vals,
           ChildSensor.validate self protocol_version vals
           = Raise (KeyError (ChildSensor.type self))).
Proof.
  intros Hconst. split.
  - unfold ChildSensor.get_schema. rewrite Hconst. simpl. split.
    + unfold subscript at 1.
      destruct (VALID_TYPES const !! Presentation_S_CUSTOM const)
        as [custom_typs|]; simpl; [|by intros [? ?]].
      destruct (ChildSensor.setreq_table const custom_typs ∅)
        as [custom|] eqn:Hcustom; simpl; [|by intros [? ?]].
      unfold subscript at 1.
      destruct (VALID_TYPES const !! ChildSensor.type self) as [typs|];
        simpl; [|by intros [? ?]].
      destruct (ChildSensor.setreq_table const typs ∅)
        as [ext|] eqn:Hext; simpl; [|by intros [? ?]].
      intros _. exists custom_typs, typs. split; [done|]. split; [done|].
      intros typ [Hin|Hin].
      * by apply (setreq_table_Ok _ _ _ _ Hcustom).
      * by apply (setreq_table_Ok _ _ _ _ Hext).
    + intros (custom_typs & typs & Hc & Ht & Hall).
      rewrite (subscript_Some _ _ _ Hc). simpl.
      rewrite setreq_table_field_table by (intros; apply Hall; by left).
      simpl. rewrite (subscript_Some _ _ _ Ht). simpl.
      rewrite setreq_table_field_table by (intros; apply Hall; by right).
      simpl. eauto.
  - intros custom_typs Hc Hall Hnone.
    assert (ChildSensor.get_schema self protocol_version
            = Raise (KeyError (ChildSensor.type self))) as Hraise.
    { unfold ChildSensor.get_schema. rewrite Hconst. simpl.
      rewrite (subscript_Some _ _ _ Hc). simpl.
      rewrite setreq_table_field_table by done. simpl.
      by rewrite (subscript_None _ _ Hnone). }
    split; [done|]. intros vals. unfold ChildSensor.validate.
    by rewrite Hraise.
Qed.

End SchemaErrors.

Lemma get_schema_returns_witness :
  @ChildSensor.get_schema Sample.collaborators
    (ChildSensor.mk 9 99 "unlisted" ∅) "1.4"
  = Raise (KeyError 99).
Proof.
  apply (proj2 (@get_schema_returns Sample.collaborators
                  (ChildSensor.mk 9 99 "unlisted" ∅) "1.4" Sample.const_1_4
                  eq_refl)
           [24; 25; 26; 27; 28]).
  - vm_compute. reflexivity.
  - intros typ Hin.
    repeat (apply elem_of_cons in Hin as [->|Hin]; [vm_compute; eauto|]).
    by apply not_elem_of_nil in Hin.
  - vm_compute. reflexivity.
Defined.
